(** * AI Travel Planner ([agent.py]): a shallow embedding and its properties

    The program is a Streamlit script.  It reads six form values, runs five
    [TravelAgent] objects one after the other (research, itinerary, budget,
    local insights, summary) and offers the summary as a download.

    Everything outside the script (Streamlit widgets and secrets, the
    Composio tool set, LangChain's [initialize_agent], the agent executor's
    [run], the chat model's [invoke], [uuid.uuid4], [datetime.now]) is
    external.  It is modelled by an interface [Ext] over an abstract world
    [W]: each external call reads the world and answers, and the calls that
    can raise answer with an [outcome].  The script itself is written in a
    small monad that carries the world, [os.environ] and the heap of
    [TravelAgent] objects, propagates exceptions and records a trace of
    everything the script shows or calls.  Theorems quantify over [Ext], so
    they hold whatever the services answer.

    Left out: the page configuration and the style sheet at module level,
    the layout of the widgets ([st.columns], [st.container], [st.empty] and
    the nesting of the [with] blocks), and the cache of
    [st.cache_resource], which lets later script runs reuse the agents of
    the first one; what several runs on the same agents do is covered by
    [invocations].  An exception is an instance of [Exception]; the display
    calls of Streamlit are taken not to raise, but for [st.download_button],
    which refuses [data] that is a list.  The content of a chat message is a
    [str] or a list of content blocks, as LangChain types it; of a list the
    script only ever uses the text [str] gives. *)

From Stdlib Require Import ZArith Ascii String Lia.
From stdpp Require Import base option strings list gmap.

Set Default Proof Using "Type".

(** ** Python values *)

(** An [Exception], identified by the text [str(e)]. *)
Definition exn : Type := string.

Inductive outcome (A : Type) : Type :=
| Ok (a : A)
| Raise (e : exn).
Arguments Ok {A} a.
Arguments Raise {A} e.

Definition dq : string := String (ascii_of_nat 34) EmptyString.
Definition nl : string := String (ascii_of_nat 10) EmptyString.

(** Truth value of a [str]: only the empty string is falsy. *)
Definition str_truthy (s : string) : bool := negb (String.eqb s "").

(** [s.replace(old, new)] for one-character [old] and [new]. *)
Fixpoint replace_char (old new : ascii) (s : string) : string :=
  match s with
  | EmptyString => EmptyString
  | String c r =>
      String (if Ascii.eqb c old then new else c) (replace_char old new r)
  end.

(** [s[:n]] *)
Fixpoint str_take (n : nat) (s : string) : string :=
  match n, s with
  | S k, String c r => String c (str_take k r)
  | _, _ => EmptyString
  end.

(** [datetime.date]: compared as (year, month, day); [str] is ISO 8601. *)
Record date : Type := mkdate { year : Z; month : Z; day : Z }.

Definition date_ltb (a b : date) : bool :=
  (year a <? year b)%Z
  || ((year a =? year b)%Z
      && ((month a <? month b)%Z
          || ((month a =? month b)%Z && (day a <? day b)%Z))).

(** [a >= b] *)
Definition date_geb (a b : date) : bool := negb (date_ltb a b).

Definition digit (n : Z) : ascii := ascii_of_nat (48 + Z.to_nat (n mod 10)).

Definition digits2 (n : Z) : string :=
  String (digit (n / 10)) (String (digit n) EmptyString).

Definition digits4 (n : Z) : string :=
  String (digit (n / 1000)) (String (digit (n / 100)) (digits2 n)).

(** [str(d)], that is ["%04d-%02d-%02d"]. *)
Definition date_str (d : date) : string :=
  digits4 (year d) +:+ "-" +:+ digits2 (month d) +:+ "-" +:+ digits2 (day d).

(** A [date] object is always truthy. *)
Definition date_truthy (_ : date) : bool := true.

(** ** Objects of the libraries *)

(** A Composio tool, by its name. *)
Definition tool : Type := string.

(** [ChatGoogleGenerativeAI(model=..., google_api_key=...)] *)
Record LLM : Type := mkLLM { model : string; google_api_key : option string }.

(** The executor [initialize_agent] returns, by what it was built from;
    [None] stands for a keyword argument left to LangChain's default. *)
Record AgentExecutor : Type := mkExecutor {
  ex_tools : list tool;
  ex_llm : LLM;
  ex_max_iterations : option Z;
  ex_early_stopping_method : option string
}.

(** What a [run] hands back.  LangChain types the [content] of a message
    [str | list]: it is a [str], or a list of content blocks, of which the
    script only ever uses the text [str(...)]. *)
Inductive value : Type :=
| Str (s : string)
| Blocks (repr : string).

(** [f"{v}"], that is [str(v)]. *)
Definition text_of (v : value) : string :=
  match v with
  | Str s => s
  | Blocks repr => repr
  end.

(** What [llm.invoke] returns: a message with a [content] attribute, or
    something else, of which the script takes [str(...)]. *)
Inductive chat_response : Type :=
| Message (content : value)
| NoContent (repr : string).

(** [chat_response.content if hasattr(chat_response, "content")
     else str(chat_response)]: the content is passed on as it is, only the
    other branch converts. *)
Definition response_value (r : chat_response) : value :=
  match r with
  | Message c => c
  | NoContent s => Str s
  end.

(** What Streamlit raises when [st.download_button] is given a list as
    [data]: it takes [str], [bytes] or a file. *)
Definition invalid_data : exn := "Invalid binary data format: <class 'list'>".

(** ** TravelAgent objects *)

Definition ref : Type := nat.

Record TravelAgent : Type := mkTravelAgent {
  name : string;
  role : string;
  goal : string;
  backstory : string;
  llm : LLM;
  tools : list tool;
  use_agent : bool;
  agent : option AgentExecutor
}.

Definition set_agent (a : option AgentExecutor) (o : TravelAgent) : TravelAgent :=
  mkTravelAgent (name o) (role o) (goal o) (backstory o) (llm o) (tools o)
                (use_agent o) a.

(** Truth value of a list, and of [self.agent] ([None] or an executor). *)
Definition list_truthy {A} (l : list A) : bool :=
  match l with [] => false | _ => true end.

Definition agent_truthy (a : option AgentExecutor) : bool :=
  match a with Some _ => true | None => false end.

(** ** The trace *)

(** How a [TravelAgent] reaches the model. *)
Inductive via : Type :=
| ViaAgent (ex : AgentExecutor)   (* self.agent.run(full_prompt) *)
| ViaLLM (l : LLM).               (* self.llm.invoke([...]) *)

Inductive reply : Type :=
| TextReply (s : string)
| ChatReply (r : chat_response).

(** The value [TravelAgent.run] makes of a reply, and its text. *)
Definition reply_value (r : reply) : value :=
  match r with
  | TextReply s => Str s
  | ChatReply c => response_value c
  end.

Definition reply_text (r : reply) : string := text_of (reply_value r).

Inductive event : Type :=
| EvMarkdown (body : string) (unsafe_allow_html : bool)
| EvError (msg : string)
| EvWarning (msg : string)
| EvSuccess (msg : string)
| EvInfo (msg : string)
| EvExpander (label : string)
| EvSpinner (text : string)
| EvColumns (n : Z)
| EvTextInput (label placeholder : string)
| EvDateInput (label : string)
| EvButton (label : string)
| EvProgress (pct : Z)
| EvProgressEmpty
| EvStatus (text : string)
| EvStatusEmpty
| EvDownloadButton (label data file_name mime : string)
| EvSleep (secs : Z)
| EvInitializeAgent (ts : list tool) (l : LLM)
| EvModelCall (self : ref) (v : via) (full_prompt : string)
| EvModelReturn (self : ref) (r : reply)
| EvModelRaise (self : ref) (e : exn).

(** ** The outside world *)

Record Ext (W : Type) : Type := mkExt {
  (* "KEY" in st.secrets, st.secrets["KEY"] *)
  ext_secrets_contains : string -> W -> outcome bool * W;
  ext_secrets_get : string -> W -> outcome string * W;
  (* ComposioToolSet(), toolset.get_tools(apps=[App.TAVILY]),
     toolset.add_tool(App.TAVILY) *)
  ext_toolset : W -> outcome unit * W;
  ext_get_tools : W -> outcome (list tool) * W;
  ext_add_tool : W -> outcome unit * W;
  (* ChatGoogleGenerativeAI(...) and initialize_agent(...): can they be built *)
  ext_chat_model : string -> option string -> W -> outcome unit * W;
  ext_initialize_agent :
    list tool -> LLM -> option Z -> option string -> W -> outcome unit * W;
  (* executor.run(prompt), llm.invoke([{type: human, content: prompt}]) *)
  ext_agent_run : AgentExecutor -> string -> W -> outcome string * W;
  ext_llm_invoke : LLM -> string -> W -> outcome chat_response * W;
  (* str(uuid.uuid4()), datetime.now().strftime("%Y-%m-%d %H:%M:%S") *)
  ext_uuid4 : W -> string * W;
  ext_now : W -> string * W;
  (* the widgets' values in this script run *)
  ext_text_input : string -> W -> string * W;
  ext_date_input : string -> W -> date * W;
  ext_button : string -> W -> bool * W
}.
Arguments ext_secrets_contains {W}.
Arguments ext_secrets_get {W}.
Arguments ext_toolset {W}.
Arguments ext_get_tools {W}.
Arguments ext_add_tool {W}.
Arguments ext_chat_model {W}.
Arguments ext_initialize_agent {W}.
Arguments ext_agent_run {W}.
Arguments ext_llm_invoke {W}.
Arguments ext_uuid4 {W}.
Arguments ext_now {W}.
Arguments ext_text_input {W}.
Arguments ext_date_input {W}.
Arguments ext_button {W}.

(** ** The state and the monad of the script *)

Record St (W : Type) : Type := mkSt {
  world : W;
  environ : gmap string string;      (* os.environ *)
  heap : list TravelAgent            (* the TravelAgent objects, by reference *)
}.
Arguments mkSt {W}.
Arguments world {W}.
Arguments environ {W}.
Arguments heap {W}.

Definition M (W A : Type) : Type := St W -> outcome A * list event * St W.

Definition ret {W A} (a : A) : M W A := fun s => (Ok a, [], s).

Definition bind {W A B} (m : M W A) (k : A -> M W B) : M W B :=
  fun s =>
    match m s with
    | (Ok a, t1, s1) =>
        match k a s1 with
        | (r, t2, s2) => (r, t1 ++ t2, s2)
        end
    | (Raise e, t1, s1) => (Raise e, t1, s1)
    end.

Definition raise {W A} (e : exn) : M W A := fun s => (Raise e, [], s).

(** [try: m  except Exception as e: h e] *)
Definition try_except {W A} (m : M W A) (h : exn -> M W A) : M W A :=
  fun s =>
    match m s with
    | (Ok a, t1, s1) => (Ok a, t1, s1)
    | (Raise e, t1, s1) =>
        match h e s1 with
        | (r, t2, s2) => (r, t1 ++ t2, s2)
        end
    end.

Definition emit {W} (e : event) : M W unit := fun s => (Ok tt, [e], s).

(** An external call that cannot raise, and one that can. *)
Definition ask {W A} (f : W -> A * W) : M W A :=
  fun s =>
    match f (world s) with
    | (a, w) => (Ok a, [], mkSt w (environ s) (heap s))
    end.

Definition call {W A} (f : W -> outcome A * W) : M W A :=
  fun s =>
    match f (world s) with
    | (r, w) => (r, [], mkSt w (environ s) (heap s))
    end.

Declare Scope script_scope.
Delimit Scope script_scope with script.
Notation "x <- m ;; k" := (bind m (fun x => k))
  (at level 100, m at next level, right associativity) : script_scope.
Notation "m ;; k" := (bind m (fun _ => k))
  (at level 100, right associativity) : script_scope.
Open Scope script_scope.

(** The result, the trace and the final state of a run. *)
Definition result_of {W A} (x : outcome A * list event * St W) : outcome A := x.1.1.
Definition trace_of {W A} (x : outcome A * list event * St W) : list event := x.1.2.
Definition state_of {W A} (x : outcome A * list event * St W) : St W := x.2.

(** ** Prompt templates (the f-strings of [TravelAgent.run] and [main]) *)

Definition full_prompt (session_id timestamp role goal backstory prompt : string)
  : string :=
  "Session ID: " +:+ session_id +:+ " | Time: " +:+ timestamp +:+ nl +:+
  "Role: " +:+ role +:+ nl +:+
  "Goal: " +:+ goal +:+ nl +:+
  "Background: " +:+ backstory +:+ nl +:+ nl +:+
  "IMPORTANT INSTRUCTION: This is a NEW query. Use the available search tools to find CURRENT, FRESH information. " +:+
  "DO NOT use any cached or previous responses. Each query should trigger NEW searches. " +:+
  "IMPORTANT INSTRUCTION: Give output in plain text and not markdown. Do not use special characters too much. " +:+
  "NEVER ask the user for more information. If any information is missing, use search tools or make reasonable assumptions. " +:+
  "ALWAYS provide a complete answer based on your FRESH search results and current knowledge." +:+ nl +:+ nl +:+
  "CURRENT USER QUERY (PROCESS THIS FRESH): " +:+ prompt.

(** The six values of the form. *)
Record Trip : Type := mkTrip {
  origin : string;
  destination : string;
  start_date : date;
  end_date : date;
  budget : string;
  interests : string
}.

Definition research_query (t : Trip) : string :=
  "IMPORTANT: This is a FRESH query for a trip from " +:+ origin t +:+ " to " +:+ destination t +:+ ". " +:+
  "You MUST perform NEW searches now. Do not use any previous information. " +:+
  "Search step 1: Search for 'flights " +:+ origin t +:+ " to " +:+ destination t +:+ " " +:+
    date_str (start_date t) +:+ " " +:+ date_str (end_date t) +:+ " 2025 current prices' " +:+
  "Search step 2: Search for 'visa requirements " +:+ destination t +:+ " from " +:+ origin t +:+ " 2025 current' " +:+
  "Search step 3: Search for 'weather " +:+ destination t +:+ " " +:+ date_str (start_date t) +:+ " 2025 forecast' " +:+
  "Provide the FRESH search results with specific prices, airlines, and current information.".

Definition itinerary_query (t : Trip) : string :=
  "FRESH QUERY: Create itinerary for " +:+ destination t +:+ " from " +:+
    date_str (start_date t) +:+ " to " +:+ date_str (end_date t) +:+ ". " +:+
  "You MUST search for NEW information now: " +:+
  "Search for: 'things to do " +:+ destination t +:+ " " +:+ interests t +:+ " " +:+
    date_str (start_date t) +:+ " 2025 current events' " +:+
  "Search for: 'attractions " +:+ destination t +:+ " opening hours 2025 current' " +:+
  "Create a day-by-day itinerary based on your FRESH search results.".

Definition budget_query (t : Trip) : string :=
  "FRESH BUDGET SEARCH for " +:+ destination t +:+ ": " +:+
  "Consider the number of days from " +:+ date_str (start_date t) +:+ " to " +:+
    date_str (end_date t) +:+ ".  " +:+
  "Search for: 'hotel prices " +:+ destination t +:+ " " +:+ date_str (start_date t) +:+ " 2025 current deals' " +:+
  "Search for: 'restaurant costs " +:+ destination t +:+ " 2025 budget dining' " +:+
  "Search for: 'activity prices " +:+ destination t +:+ " " +:+ interests t +:+ " 2025 discounts' " +:+
  "Budget is " +:+ budget t +:+ ". Provide FRESH pricing information from your searches.".

Definition local_query (t : Trip) : string :=
  "FRESH LOCAL SEARCH for " +:+ destination t +:+ ": " +:+
  "Search for: 'local events " +:+ destination t +:+ " " +:+ date_str (start_date t) +:+ " to " +:+
    date_str (end_date t) +:+ " 2025' " +:+
  "Search for: 'cultural activities " +:+ destination t +:+ " " +:+ interests t +:+ " 2025 current' " +:+
  "Search for: 'local tips " +:+ destination t +:+ " 2025 etiquette customs' " +:+
  "Provide FRESH local information from your searches.".

Definition summary_prompt (flights_info itinerary budget_plan local_tips : string)
  : string :=
  "Create a concise travel plan summary with these sections: " +:+
  "Current Flight & Travel Info, Daily Itinerary, Budget & Deals, Local Events & Tips." +:+ nl +:+ nl +:+
  "Flight & Travel Info:" +:+ nl +:+ flights_info +:+ "..." +:+ nl +:+ nl +:+
  "Itinerary:" +:+ nl +:+ itinerary +:+ "..." +:+ nl +:+ nl +:+
  "Budget & Deals:" +:+ nl +:+ budget_plan +:+ "..." +:+ nl +:+ nl +:+
  "Local Events & Tips:" +:+ nl +:+ local_tips +:+ "..." +:+ nl +:+ nl +:+
  "Make it actionable and current for the traveler.".

(** [f"travel_plan_{destination.replace(' ', '_')}_{start_date}.txt"] *)
Definition file_name (t : Trip) : string :=
  "travel_plan_" +:+ replace_char " " "_" (destination t) +:+ "_" +:+
  date_str (start_date t) +:+ ".txt".

(** [f'<div class="cls">{body}</div>'] *)
Definition div (cls body : string) : string :=
  "<div class=" +:+ dq +:+ cls +:+ dq +:+ ">" +:+ body +:+ "</div>".

Definition agent_response (body : string) : string := div "agent-response" body.
Definition success_box (body : string) : string := div "success-box" body.
Definition error_box (e : exn) : string :=
  div "error-box" ("❌ Error generating travel plan: " +:+ e).

(** The dictionary [initialize_agents] returns: five fixed keys. *)
Record Agents : Type := mkAgents {
  researcher : ref;
  planner : ref;
  budget_expert : ref;
  local_expert : ref;
  summarizer : ref
}.

Section Script.
Context {W : Type} (X : Ext W).

Local Abbreviation M := (M W).

(** ** Streamlit calls *)

Definition st_markdown (body : string) (unsafe_allow_html : bool) : M unit :=
  emit (EvMarkdown body unsafe_allow_html).
Definition st_error (msg : string) : M unit := emit (EvError msg).
Definition st_warning (msg : string) : M unit := emit (EvWarning msg).
Definition st_success (msg : string) : M unit := emit (EvSuccess msg).
Definition st_info (msg : string) : M unit := emit (EvInfo msg).
Definition st_expander (label : string) : M unit := emit (EvExpander label).
Definition st_spinner (text : string) : M unit := emit (EvSpinner text).

Definition st_text_input (label placeholder : string) : M string :=
  emit (EvTextInput label placeholder) ;; ask (ext_text_input X label).

(** [min_value] only restricts what the user can pick; it is not recorded. *)
Definition st_date_input (label : string) : M date :=
  emit (EvDateInput label) ;; ask (ext_date_input X label).

Definition st_button (label : string) : M bool :=
  emit (EvButton label) ;; ask (ext_button X label).

(** [data] has to be a [str]; a list is refused with an exception. *)
Definition st_download_button (label : string) (data : value)
    (file_name mime : string) : M unit :=
  match data with
  | Str text => emit (EvDownloadButton label text file_name mime)
  | Blocks _ => raise invalid_data
  end.

(** ** [os.environ] *)

Definition setenv (k v : string) : M unit :=
  fun s => (Ok tt, [], mkSt (world s) (<[k := v]> (environ s)) (heap s)).

Definition getenv (k : string) : M (option string) :=
  fun s => (Ok (environ s !! k), [], s).

(** ** The heap of [TravelAgent] objects *)

Definition alloc (o : TravelAgent) : M ref :=
  fun s => (Ok (length (heap s)), [],
            mkSt (world s) (environ s) (heap s ++ [o])).

(** Reading [self]: a reference that no constructor returned has no object
    (Python cannot form one); the model raises there. *)
Definition deref (self : ref) : M TravelAgent :=
  fun s =>
    match heap s !! self with
    | Some o => (Ok o, [], s)
    | None => (Raise "dangling reference", [], s)
    end.

Definition store (self : ref) (o : TravelAgent) : M unit :=
  fun s => (Ok tt, [], mkSt (world s) (environ s) (<[self := o]> (heap s))).

(** ** [setup_environment] *)

Definition setup_instructions : string :=
  "
            <div class=" +:+ dq +:+ "setup-info" +:+ dq +:+ ">
            <strong>Setup Instructions:</strong><br>
            1. Go to your Streamlit app settings<br>
            2. Add the following to your secrets.toml:<br>
            <code>
            GOOGLE_API_KEY = " +:+ dq +:+ "your_google_api_key_here" +:+ dq +:+ "<br>
            COMPOSIO_API_KEY = " +:+ dq +:+ "your_composio_api_key_here" +:+ dq +:+ "<br>
            TAVILY_API_KEY = " +:+ dq +:+ "your_tavily_api_key_here" +:+ dq +:+ "
            </code>
            </div>
            ".

Definition copy_secret (k : string) : M unit :=
  v <- call (ext_secrets_get X k) ;; setenv k v.

Definition copy_secret_if_present (k : string) : M unit :=
  present <- call (ext_secrets_contains X k) ;;
  if present then copy_secret k else ret tt.

Definition setup_environment : M bool :=
  try_except
    (present <- call (ext_secrets_contains X "GOOGLE_API_KEY") ;;
     if negb present then
       st_error "❌ Google API Key not found in secrets. Please add it to your Streamlit secrets." ;;
       st_markdown setup_instructions true ;;
       ret false
     else
       copy_secret "GOOGLE_API_KEY" ;;
       copy_secret_if_present "COMPOSIO_API_KEY" ;;
       copy_secret_if_present "TAVILY_API_KEY" ;;
       ret true)
    (fun e =>
       st_error ("❌ Error setting up environment: " +:+ e) ;;
       ret false).

(** ** [initialize_composio_tools] *)

Definition connect_tavily : M (list tool) :=
  try_except
    (call (ext_add_tool X) ;;
     tools <- call (ext_get_tools X) ;;
     if list_truthy tools then
       st_success "✅ Tavily integration successful!" ;;
       ret tools
     else
       st_error "❌ Failed to connect Tavily. Please check your API keys." ;;
       ret [])
    (fun e =>
       st_error ("❌ Failed to setup Tavily integration: " +:+ e) ;;
       st_info "💡 Make sure your Tavily API key is correctly set in secrets." ;;
       ret []).

Definition initialize_composio_tools : M (list tool) :=
  try_except
    (call (ext_toolset X) ;;
     tools <- call (ext_get_tools X) ;;
     if negb (list_truthy tools) then
       st_warning "⚠️ Tavily tools not found. Attempting to connect Tavily..." ;;
       connect_tavily
     else ret tools)
    (fun e =>
       st_error ("❌ Error initializing Composio tools: " +:+ e) ;;
       ret []).

(** ** [TravelAgent] *)

(** LangChain's [initialize_agent(tools, llm, agent=..., verbose=False, ...)]. *)
Definition initialize_agent (tools : list tool) (llm : LLM)
    (max_iterations : option Z) (early_stopping_method : option string)
  : M AgentExecutor :=
  emit (EvInitializeAgent tools llm) ;;
  call (ext_initialize_agent X tools llm max_iterations early_stopping_method) ;;
  ret (mkExecutor tools llm max_iterations early_stopping_method).

(** [TravelAgent.__init__]; the new object's reference is the result. *)
Definition TravelAgent_init (name role goal backstory : string) (llm : LLM)
    (tools : list tool) (use_agent : bool) : M ref :=
  agent <- (if use_agent && list_truthy tools then
              ex <- initialize_agent tools llm None None ;; ret (Some ex)
            else ret None) ;;
  alloc (mkTravelAgent name role goal backstory llm tools use_agent agent).

(** One call to the model, through the executor or directly, with its
    start and its end in the trace. *)
Definition model_call (self : ref) (v : via) (full_prompt : string) : M reply :=
  fun s =>
    let '(r, w) :=
      match v with
      | ViaAgent ex =>
          match ext_agent_run X ex full_prompt (world s) with
          | (Ok response, w) => (Ok (TextReply response), w)
          | (Raise e, w) => (Raise e, w)
          end
      | ViaLLM l =>
          match ext_llm_invoke X l full_prompt (world s) with
          | (Ok chat_response, w) => (Ok (ChatReply chat_response), w)
          | (Raise e, w) => (Raise e, w)
          end
      end in
    let s' := mkSt w (environ s) (heap s) in
    match r with
    | Ok a =>
        (Ok a, [EvModelCall self v full_prompt; EvModelReturn self a], s')
    | Raise e =>
        (Raise e, [EvModelCall self v full_prompt; EvModelRaise self e], s')
    end.

(** [TravelAgent.run] *)
Definition run (self : ref) (prompt : string) : M value :=
  uuid <- ask (ext_uuid4 X) ;;
  let session_id := str_take 8 uuid in
  timestamp <- ask (ext_now X) ;;
  this <- deref self ;;
  let full_prompt :=
    full_prompt session_id timestamp (role this) (goal this) (backstory this)
                prompt in
  if use_agent this && agent_truthy (agent this) then
    ex <- initialize_agent (tools this) (llm this) (Some 3%Z) (Some "generate") ;;
    store self (set_agent (Some ex) this) ;;
    response <- model_call self (ViaAgent ex) full_prompt ;;
    ret (reply_value response)
  else
    chat_response <- model_call self (ViaLLM (llm this)) full_prompt ;;
    ret (reply_value chat_response).

(** ** [initialize_agents] *)

Definition chat_model (model : string) (google_api_key : option string) : M LLM :=
  call (ext_chat_model X model google_api_key) ;;
  ret (mkLLM model google_api_key).

Definition research_agent_init (llm : LLM) (tools : list tool) : M ref :=
  TravelAgent_init "Researcher" "Travel Research Specialist"
    "Provide current info: flights, hotels, attractions, visa, weather using web search"
    ("You are an expert travel researcher with access to real-time web search. " +:+
     "You use search tools to find current flight prices, hotel availability, " +:+
     "visa requirements, weather conditions, and travel advisories.")
    llm tools true.

Definition itinerary_agent_init (llm : LLM) (tools : list tool) : M ref :=
  TravelAgent_init "Planner" "Itinerary Planning Expert"
    "Create detailed, optimized travel itineraries using current information"
    ("You are a master itinerary planner who uses web search to find current " +:+
     "opening hours, seasonal events, local festivals, and up-to-date attraction information " +:+
     "to create the most relevant travel plans.")
    llm tools true.

Definition budget_agent_init (llm : LLM) (tools : list tool) : M ref :=
  TravelAgent_init "Budget Expert" "Budget Optimization Specialist"
    "Find current deals, prices, and budget-friendly options using web search"
    ("You are a financial planner specializing in travel budgeting. You use search tools " +:+
     "to find current deals, discount codes, price comparisons, and budget-friendly alternatives.")
    llm tools true.

Definition local_expert_agent_init (llm : LLM) (tools : list tool) : M ref :=
  TravelAgent_init "Local Expert" "Local Culture and Experience Guide"
    "Provide current local insights, events, and recommendations using web search"
    ("You are a cultural expert who uses web search to find current local events, " +:+
     "seasonal activities, recent reviews, and trending local experiences.")
    llm tools true.

Definition summarizer_agent_init (llm : LLM) : M ref :=
  TravelAgent_init "Summarizer" "Travel Plan Summarization Specialist"
    "Summarize detailed travel information into a concise and clear travel plan"
    ("You are an expert summarizer that combines multiple travel planning outputs " +:+
     "into a user-friendly summary.")
    llm [] false.

(** The body of [initialize_agents], from the tools on. *)
Definition build_agents (llm : LLM) (tools : list tool) : M Agents :=
  research_agent <- research_agent_init llm tools ;;
  itinerary_agent <- itinerary_agent_init llm tools ;;
  budget_agent <- budget_agent_init llm tools ;;
  local_expert_agent <- local_expert_agent_init llm tools ;;
  summarizer_agent <- summarizer_agent_init llm ;;
  ret (mkAgents research_agent itinerary_agent budget_agent local_expert_agent
                summarizer_agent).

Definition initialize_agents : M (option Agents) :=
  try_except
    (key <- getenv "GOOGLE_API_KEY" ;;
     llm <- chat_model "gemini-2.0-flash" key ;;
     tools <- initialize_composio_tools ;;
     (if negb (list_truthy tools) then
        st_warning "⚠️ No search tools available. Some features may be limited."
      else ret tt) ;;
     agents <- build_agents llm tools ;;
     ret (Some agents))
    (fun e =>
       st_error ("Error initializing agents: " +:+ e) ;;
       ret None).

(** ** [main] *)

(** The [try] body of [main]: the five steps and the download. *)
Definition generate_plan (agents : Agents) (t : Trip) : M unit :=
  (* Step 1: Research *)
  emit (EvStatus "🔍 Researching flights, visas, and weather...") ;;
  emit (EvProgress 20) ;;
  let research_query := research_query t in
  st_expander "🔍 Research Results" ;;
  st_spinner "Searching for flights, visas, and weather info..." ;;
  flights_info <- run (researcher agents) research_query ;;
  st_markdown (agent_response (text_of flights_info)) true ;;
  (* Step 2: Itinerary Planning *)
  emit (EvStatus "📋 Creating detailed itinerary...") ;;
  emit (EvProgress 40) ;;
  let itinerary_query := itinerary_query t in
  st_expander "📋 Detailed Itinerary" ;;
  st_spinner "Planning your daily itinerary..." ;;
  itinerary <- run (planner agents) itinerary_query ;;
  st_markdown (agent_response (text_of itinerary)) true ;;
  (* Step 3: Budget Planning *)
  emit (EvStatus "💰 Analyzing budget and finding deals...") ;;
  emit (EvProgress 60) ;;
  let budget_query := budget_query t in
  st_expander "💰 Budget Analysis" ;;
  st_spinner "Finding the best deals and pricing..." ;;
  budget_plan <- run (budget_expert agents) budget_query ;;
  st_markdown (agent_response (text_of budget_plan)) true ;;
  (* Step 4: Local Insights *)
  emit (EvStatus "🌟 Gathering local insights and tips...") ;;
  emit (EvProgress 80) ;;
  let local_query := local_query t in
  st_expander "🌟 Local Insights" ;;
  st_spinner "Discovering local events and cultural tips..." ;;
  local_tips <- run (local_expert agents) local_query ;;
  st_markdown (agent_response (text_of local_tips)) true ;;
  (* Step 5: Final Summary *)
  emit (EvStatus "📝 Creating your personalized travel plan...") ;;
  emit (EvProgress 100) ;;
  let summary_prompt :=
    summary_prompt (text_of flights_info) (text_of itinerary)
                   (text_of budget_plan) (text_of local_tips) in
  st_spinner "Generating your final travel plan..." ;;
  summarized_plan <- run (summarizer agents) summary_prompt ;;
  (* Display final plan *)
  st_markdown (div "section-header" "🎯 Your Personalized Travel Plan") true ;;
  st_markdown (success_box (text_of summarized_plan)) true ;;
  (* Download option *)
  st_download_button "📥 Download Travel Plan" summarized_plan (file_name t)
                     "text/plain" ;;
  emit (EvStatus "✅ Travel plan generated successfully!") ;;
  emit (EvSleep 2) ;;
  emit EvStatusEmpty ;;
  emit EvProgressEmpty.

(** The [except Exception as e] clause of [main]. *)
Definition report_failure (e : exn) : M unit :=
  st_markdown (error_box e) true ;;
  st_info "💡 Please check that all API keys are correctly configured in your Streamlit secrets.".

Definition about_this_app : string :=
  "
            This AI Travel Planner uses:
            - **Google Gemini** for AI reasoning
            - **Composio** for tool orchestration
            - **Tavily** for real-time web search
            
            **Features:**
            - Real-time flight & hotel searches
            - Current weather & visa info
            - Local events & cultural insights
            - Budget optimization
            - Personalized itineraries
            ".

Definition quick_start : string :=
  "
            1. Fill in your trip details below
            2. Click " +:+ dq +:+ "Generate Travel Plan" +:+ dq +:+ "
            3. Get your personalized itinerary
            4. Download your travel plan
            
            **No manual setup required!**
            ".

Definition sidebar : M unit :=
  st_expander "ℹ️ About This App" ;;
  st_markdown about_this_app false ;;
  st_expander "🚀 Quick Start" ;;
  st_markdown quick_start false.

Definition footer : M unit :=
  st_markdown "---" false ;;
  st_markdown "🤖 Powered by AI agents with real-time search capabilities | Auto-configured for instant use" false.

(** The six widgets of the form, in the order the script creates them. *)
Definition trip_details : M Trip :=
  st_markdown (div "section-header" "✈️ Trip Details") true ;;
  emit (EvColumns 2) ;;
  origin <- st_text_input "🛫 Departure City" "e.g., New York, NY" ;;
  start_date <- st_date_input "📅 Start Date" ;;
  budget <- st_text_input "💰 Total Budget" "e.g., $2000 USD" ;;
  destination <- st_text_input "🛬 Destination City" "e.g., Paris, France" ;;
  end_date <- st_date_input "📅 End Date" ;;
  interests <- st_text_input "🎯 Interests" "museums, food, hiking, beaches" ;;
  ret (mkTrip origin destination start_date end_date budget interests).

(** [all([origin, destination, start_date, end_date, budget, interests])] *)
Definition all_filled (t : Trip) : bool :=
  forallb id
    [str_truthy (origin t); str_truthy (destination t);
     date_truthy (start_date t); date_truthy (end_date t);
     str_truthy (budget t); str_truthy (interests t)].

(** [main] from the form on, for agents that were initialised.  A [return]
    of the script ends the branch it is in; the footer follows the others. *)
Definition plan_trip (agents : Agents) : M unit :=
  t <- trip_details ;;
  (* Validation *)
  if date_geb (start_date t) (end_date t) then
    st_error "❌ End date must be after start date!"
  else
    clicked <- st_button "🚀 Generate Travel Plan" ;;
    if clicked then
      if negb (all_filled t) then
        st_error "❌ Please fill in all fields!"
      else
        emit (EvProgress 0) ;;
        try_except (generate_plan agents t) report_failure ;;
        footer
    else footer.

Definition main : M unit :=
  st_markdown ("<h1 class=" +:+ dq +:+ "main-header" +:+ dq +:+ ">🌍 AI Travel Planner ✈️</h1>") true ;;
  st_markdown "Plan your perfect trip with AI-powered research and real-time information!" false ;;
  ok <- setup_environment ;;
  if negb ok then ret tt
  else
    sidebar ;;
    st_spinner "🔄 Initializing AI agents..." ;;
    agents <- initialize_agents ;;
    match agents with
    | None => st_error "Failed to initialize agents. Please check your configuration."
    | Some agents => plan_trip agents
    end.

End Script.

(** ** Reading a trace *)

Definition is_model_event (e : event) : bool :=
  match e with
  | EvModelCall _ _ _ | EvModelReturn _ _ | EvModelRaise _ _ => true
  | _ => false
  end.

(** The calls to the model, their returns and their failures, in order. *)
Definition model_events (tr : list event) : list event :=
  List.filter is_model_event tr.

(** Who called the model, in order. *)
Fixpoint model_calls (tr : list event) : list ref :=
  match tr with
  | [] => []
  | EvModelCall self _ _ :: r => self :: model_calls r
  | _ :: r => model_calls r
  end.

(** On a list of model events: every call is followed at once by its own
    return, and only then may the next call start; a call that raises is the
    last event. *)
Fixpoint sequential (tr : list event) : bool :=
  match tr with
  | [] => true
  | EvModelCall a _ _ :: r =>
      match r with
      | EvModelReturn b _ :: r' => Nat.eqb a b && sequential r'
      | [EvModelRaise b _] => Nat.eqb a b
      | _ => false
      end
  | _ => false
  end.

(** The order of the five steps. *)
Definition call_order (agents : Agents) : list ref :=
  [researcher agents; planner agents; budget_expert agents;
   local_expert agents; summarizer agents].

(** The four agents that write a report. *)
Definition report_agents (agents : Agents) : list ref :=
  [researcher agents; planner agents; budget_expert agents;
   local_expert agents].

Definition is_input_field (e : event) : bool :=
  match e with
  | EvTextInput _ _ | EvDateInput _ => true
  | _ => false
  end.

Definition is_submit (e : event) : bool :=
  match e with
  | EvButton _ => true
  | _ => false
  end.

Definition count_events (f : event -> bool) (tr : list event) : nat :=
  length (List.filter f tr).

Definition input_fields : list event -> nat := count_events is_input_field.
Definition submit_actions : list event -> nat := count_events is_submit.

Definition is_download (e : event) : bool :=
  match e with
  | EvDownloadButton _ _ _ _ => true
  | _ => false
  end.

Definition downloads (tr : list event) : list event :=
  List.filter is_download tr.

Definition is_model_return (e : event) : bool :=
  match e with
  | EvModelReturn _ _ => true
  | _ => false
  end.

(** How many of the steps got their answer from the model. *)
Definition steps_returned : list event -> nat := count_events is_model_return.

(** [x] occurs in [s]. *)
Definition contains (x s : string) : Prop :=
  exists pre post, s = pre +:+ x +:+ post.

(** The [parts] occur in [s] one after the other, without overlap. *)
Fixpoint in_order (parts : list string) (s : string) : Prop :=
  match parts with
  | [] => True
  | p :: ps => exists pre rest, s = pre +:+ p +:+ rest /\ in_order ps rest
  end.

(** A call by one of the agents [who] goes through a tool-using executor
    built from the tools [ts]. *)
Definition tool_call_of (who : list ref) (ts : list tool) (e : event) : Prop :=
  match e with
  | EvModelCall self v _ =>
      In self who ->
      match v with
      | ViaAgent ex => ex_tools ex = ts
      | ViaLLM _ => False
      end
  | _ => True
  end.

(** A call by one of the agents [who] is a direct call of the chat model. *)
Definition direct_call_of (who : list ref) (e : event) : Prop :=
  match e with
  | EvModelCall self v _ =>
      In self who ->
      match v with
      | ViaAgent _ => False
      | ViaLLM _ => True
      end
  | _ => True
  end.

(** Every prompt sent to the model carries the four [parts] in order. *)
Definition prompt_carries (parts : list string) (e : event) : Prop :=
  match e with
  | EvModelCall _ _ full_prompt => in_order parts full_prompt
  | _ => True
  end.

(** Several invocations of [run], one after the other, each one going on
    from the state the previous one left, whether it returned or raised. *)
Fixpoint invocations {W} (X : Ext W) (calls : list (ref * string)) (s : St W)
  : list event * St W :=
  match calls with
  | [] => ([], s)
  | (self, prompt) :: rest =>
      match run X self prompt s with
      | (_, t1, s1) =>
          match invocations X rest s1 with
          | (t2, s2) => (t1 ++ t2, s2)
          end
      end
  end.

(** The prompts sent to the model, in order. *)
Fixpoint call_prompts (tr : list event) : list string :=
  match tr with
  | [] => []
  | EvModelCall _ _ full_prompt :: r => full_prompt :: call_prompts r
  | _ :: r => call_prompts r
  end.

(** The queries of the four report steps, in order. *)
Definition step_queries (t : Trip) : list string :=
  [research_query t; itinerary_query t; budget_query t; local_query t].

(** ** What one [run] leaves in the trace *)

Definition is_initialize (e : event) : bool :=
  match e with
  | EvInitializeAgent _ _ => true
  | _ => false
  end.

(** [full_prompt] is what [run] makes of [prompt], for some session id,
    time stamp and agent. *)
Definition sent (prompt full_prompt' : string) : Prop :=
  exists session_id timestamp role goal backstory,
    full_prompt' = full_prompt session_id timestamp role goal backstory prompt.

(** A [run] either raises before it reaches the model, or calls the model
    once and raises what the model raises, or calls it once and returns what
    it takes from the reply; before the call it can only rebuild its
    executor. *)
Inductive run_shape (self : ref) (prompt : string)
  : outcome value -> list event -> Prop :=
| run_no_call e pre :
    forallb is_initialize pre = true ->
    run_shape self prompt (Raise e) pre
| run_call_raises e pre v fp :
    forallb is_initialize pre = true ->
    sent prompt fp ->
    run_shape self prompt (Raise e)
              (pre ++ [EvModelCall self v fp; EvModelRaise self e])
| run_call_returns rep pre v fp :
    forallb is_initialize pre = true ->
    sent prompt fp ->
    run_shape self prompt (Ok (reply_value rep))
              (pre ++ [EvModelCall self v fp; EvModelReturn self rep]).

(** The executor answers with text, the chat model with a message. *)
Definition reply_to (v : via) (r : reply) : Prop :=
  match v, r with
  | ViaAgent _, TextReply _ => True
  | ViaLLM _, ChatReply _ => True
  | _, _ => False
  end.

(** The executor [run] rebuilds before every call through the agent. *)
Definition rebuilt (o : TravelAgent) : AgentExecutor :=
  mkExecutor (tools o) (llm o) (Some 3%Z) (Some "generate").

(** The six ways a [run] on the heap [h] can go: result, trace, heap left. *)
Inductive run_of (self : ref) (prompt : string) (h : list TravelAgent)
  : outcome value -> list event -> list TravelAgent -> Prop :=
| run_dangling e :
    h !! self = None ->
    run_of self prompt h (Raise e) [] h
| run_rebuild_fails o e :
    h !! self = Some o ->
    use_agent o && agent_truthy (agent o) = true ->
    run_of self prompt h (Raise e) [EvInitializeAgent (tools o) (llm o)] h
| run_agent_raises o session_id timestamp e :
    h !! self = Some o ->
    use_agent o && agent_truthy (agent o) = true ->
    run_of self prompt h (Raise e)
      [EvInitializeAgent (tools o) (llm o);
       EvModelCall self (ViaAgent (rebuilt o))
         (full_prompt session_id timestamp (role o) (goal o) (backstory o) prompt);
       EvModelRaise self e]
      (<[self := set_agent (Some (rebuilt o)) o]> h)
| run_agent_returns o session_id timestamp response :
    h !! self = Some o ->
    use_agent o && agent_truthy (agent o) = true ->
    run_of self prompt h (Ok (Str response))
      [EvInitializeAgent (tools o) (llm o);
       EvModelCall self (ViaAgent (rebuilt o))
         (full_prompt session_id timestamp (role o) (goal o) (backstory o) prompt);
       EvModelReturn self (TextReply response)]
      (<[self := set_agent (Some (rebuilt o)) o]> h)
| run_llm_raises o session_id timestamp e :
    h !! self = Some o ->
    use_agent o && agent_truthy (agent o) = false ->
    run_of self prompt h (Raise e)
      [EvModelCall self (ViaLLM (llm o))
         (full_prompt session_id timestamp (role o) (goal o) (backstory o) prompt);
       EvModelRaise self e]
      h
| run_llm_returns o session_id timestamp chat_response :
    h !! self = Some o ->
    use_agent o && agent_truthy (agent o) = false ->
    run_of self prompt h (Ok (response_value chat_response))
      [EvModelCall self (ViaLLM (llm o))
         (full_prompt session_id timestamp (role o) (goal o) (backstory o) prompt);
       EvModelReturn self (ChatReply chat_response)]
      h.

(** An object that calls the model through an executor over the tools [ts]. *)
Definition search_agent (ts : list tool) (o : TravelAgent) : Prop :=
  use_agent o = true /\ tools o = ts /\ agent_truthy (agent o) = true.

(** An object that calls the chat model directly. *)
Definition direct_agent (o : TravelAgent) : Prop :=
  use_agent o && agent_truthy (agent o) = false.

(** An event that is neither a call to the model nor a widget of the form. *)
Definition is_quiet (e : event) : bool :=
  negb (is_model_event e || is_input_field e || is_submit e).

(** ** More readers of a trace *)

(** The messages of [st.error], in order. *)
Fixpoint errors (tr : list event) : list string :=
  match tr with
  | [] => []
  | EvError msg :: r => msg :: errors r
  | _ :: r => errors r
  end.

(** The three secrets [setup_environment] copies. *)
Definition secret_keys : list string :=
  ["GOOGLE_API_KEY"; "COMPOSIO_API_KEY"; "TAVILY_API_KEY"].

(** The names [initialize_agents] gives the five agents, in [call_order]. *)
Definition agent_names : list string :=
  ["Researcher"; "Planner"; "Budget Expert"; "Local Expert"; "Summarizer"].

(** What [st.markdown] showed, with its [unsafe_allow_html] flag, in order. *)
Fixpoint markdowns (tr : list event) : list (string * bool) :=
  match tr with
  | [] => []
  | EvMarkdown body html :: r => (body, html) :: markdowns r
  | _ :: r => markdowns r
  end.

(** The texts [run] made of the replies of the model, in order. *)
Fixpoint returned (tr : list event) : list string :=
  match tr with
  | [] => []
  | EvModelReturn _ r :: rest => reply_text r :: returned rest
  | _ :: rest => returned rest
  end.

(** How a report is shown: in an agent-response box, as raw HTML. *)
Definition shown_report (text : string) : string * bool :=
  (agent_response text, true).

(** Every character of [s] passes [p]. *)
Fixpoint string_forall (p : ascii -> bool) (s : string) : bool :=
  match s with
  | EmptyString => true
  | String c r => p c && string_forall p r
  end.

Definition not_space (c : ascii) : bool := negb (Ascii.eqb c " ").

(** ** A scripted world, for running the script on concrete inputs *)

Module Demo.

(** The world counts the calls to the model made so far. *)
Definition replies : list string :=
  ["Flights from 420 USD"; "Day 1: Louvre"; "Hotels from 90 USD";
   "Bastille Day parade"; "Your plan: fly, visit, enjoy"].

Definition answer (fail_at : option nat) (w : nat) : outcome string * nat :=
  if decide (fail_at = Some w) then (Raise "quota exceeded", S w)
  else (Ok (nth w replies "..."), S w).

Definition chat_answer (fail_at : option nat) (w : nat)
  : outcome chat_response * nat :=
  match answer fail_at w with
  | (Ok r, w') => (Ok (Message (Str r)), w')
  | (Raise e, w') => (Raise e, w')
  end.

(** [available]: the tools Composio has; [fail_at]: which call to the
    model raises; [t], [clicked]: what the user entered and did. *)
Definition ext (available : list tool) (fail_at : option nat) (t : Trip)
    (clicked : bool) : Ext nat :=
  {| ext_secrets_contains := fun _ w => (Ok true, w);
     ext_secrets_get := fun _ w => (Ok "secret", w);
     ext_toolset := fun w => (Ok tt, w);
     ext_get_tools := fun w => (Ok available, w);
     ext_add_tool := fun w => (Ok tt, w);
     ext_chat_model := fun _ _ w => (Ok tt, w);
     ext_initialize_agent := fun _ _ _ _ w => (Ok tt, w);
     ext_agent_run := fun _ _ w => answer fail_at w;
     ext_llm_invoke := fun _ _ w => chat_answer fail_at w;
     ext_uuid4 := fun w => ("123e4567-e89b-12d3-a456-426614174000", w);
     ext_now := fun w => ("2026-01-05 10:00:00", w);
     ext_text_input := fun label w =>
       (if String.eqb label "🛫 Departure City" then origin t
        else if String.eqb label "💰 Total Budget" then budget t
        else if String.eqb label "🛬 Destination City" then destination t
        else interests t, w);
     ext_date_input := fun label w =>
       (if String.eqb label "📅 Start Date" then start_date t
        else end_date t, w);
     ext_button := fun _ w => (clicked, w) |}.

Definition paris : Trip :=
  mkTrip "New York" "Paris France" (mkdate 2027 7 10) (mkdate 2027 7 17)
         "$2000 USD" "museums, food".

(** The user left the interests empty. *)
Definition no_interests : Trip :=
  mkTrip "New York" "Paris France" (mkdate 2027 7 10) (mkdate 2027 7 17)
         "$2000 USD" "".

Definition tavily : list tool := ["TAVILY_SEARCH"].

Definition s0 : St nat := mkSt 0 ∅ [].

Definition gemini : LLM := mkLLM "gemini-2.0-flash" None.

(** The five agents, as [build_agents] leaves them on an empty heap. *)
Definition agents0 : Agents := mkAgents 0 1 2 3 4.

Definition built (available : list tool) : St nat :=
  state_of (build_agents (ext available None paris true) gemini available s0).

(** The research agent of [built tavily]. *)
Definition researcher0 : TravelAgent :=
  Eval vm_compute in
    nth 0 (heap (built tavily))
        (mkTravelAgent "" "" "" "" gemini [] false None).

(** Tools available, no failure, the form filled in, the button pressed. *)
Definition fine : Ext nat := ext tavily None paris true.

(** The third call to the model raises. *)
Definition budget_fails : Ext nat := ext tavily (Some 2) paris true.

(** Composio has no tool. *)
Definition no_tools : Ext nat := ext [] None paris true.

(** The interests were left empty. *)
Definition incomplete : Ext nat := ext tavily None no_interests true.

(** [str] of a list of content blocks. *)
Definition blocks : string :=
  "[{'type': 'text', 'text': 'Your plan: fly, visit, enjoy'}]".

(** As [ext available None paris true], but the content of the message the
    chat model answers with is a list of content blocks. *)
Definition list_content (available : list tool) : Ext nat :=
  let X := ext available None paris true in
  {| ext_secrets_contains := ext_secrets_contains X;
     ext_secrets_get := ext_secrets_get X;
     ext_toolset := ext_toolset X;
     ext_get_tools := ext_get_tools X;
     ext_add_tool := ext_add_tool X;
     ext_chat_model := ext_chat_model X;
     ext_initialize_agent := ext_initialize_agent X;
     ext_agent_run := ext_agent_run X;
     ext_llm_invoke := fun _ _ w => (Ok (Message (Blocks blocks)), S w);
     ext_uuid4 := ext_uuid4 X;
     ext_now := ext_now X;
     ext_text_input := ext_text_input X;
     ext_date_input := ext_date_input X;
     ext_button := ext_button X |}.

(** No secret has been configured. *)
Definition no_secrets : Ext nat :=
  {| ext_secrets_contains := fun _ w => (Ok false, w);
     ext_secrets_get := fun _ w => (Raise "KeyError", w);
     ext_toolset := ext_toolset fine;
     ext_get_tools := ext_get_tools fine;
     ext_add_tool := ext_add_tool fine;
     ext_chat_model := ext_chat_model fine;
     ext_initialize_agent := ext_initialize_agent fine;
     ext_agent_run := ext_agent_run fine;
     ext_llm_invoke := ext_llm_invoke fine;
     ext_uuid4 := ext_uuid4 fine;
     ext_now := ext_now fine;
     ext_text_input := ext_text_input fine;
     ext_date_input := ext_date_input fine;
     ext_button := ext_button fine |}.

(** LangChain cannot build an executor. *)
Definition framework_down : Ext nat :=
  {| ext_secrets_contains := ext_secrets_contains fine;
     ext_secrets_get := ext_secrets_get fine;
     ext_toolset := ext_toolset fine;
     ext_get_tools := ext_get_tools fine;
     ext_add_tool := ext_add_tool fine;
     ext_chat_model := ext_chat_model fine;
     ext_initialize_agent :=
       fun _ _ _ _ w => (Raise "agent framework unavailable", w);
     ext_agent_run := ext_agent_run fine;
     ext_llm_invoke := ext_llm_invoke fine;
     ext_uuid4 := ext_uuid4 fine;
     ext_now := ext_now fine;
     ext_text_input := ext_text_input fine;
     ext_date_input := ext_date_input fine;
     ext_button := ext_button fine |}.

(** The button has not been pressed. *)
Definition idle : Ext nat := ext tavily None paris false.

(** The summarizer of [built tavily]. *)
Definition summarizer0 : TravelAgent :=
  Eval vm_compute in nth 4 (heap (built tavily)) researcher0.

End Demo.

(** * Properties *)

(** ** Strings *)

Lemma append_assoc (a b c : string) : (a +:+ b) +:+ c = a +:+ b +:+ c.
Proof.
  induction a as [|x a IH]; [reflexivity |].
  change (String x ((a +:+ b) +:+ c) = String x (a +:+ b +:+ c)).
  by rewrite IH.
Qed.

Lemma append_empty_r (a : string) : a +:+ "" = a.
Proof.
  induction a as [|x a IH]; [reflexivity |].
  change (String x (a +:+ "") = String x a). by rewrite IH.
Qed.

Lemma contains_here (x post : string) : contains x (x +:+ post).
Proof. by exists "", post. Qed.

Lemma contains_end (x : string) : contains x x.
Proof.
  exists "", "". by rewrite append_empty_r.
Qed.

Lemma contains_skip (x pre s : string) : contains x s -> contains x (pre +:+ s).
Proof.
  intros (p & q & ->). exists (pre +:+ p), q. by rewrite append_assoc.
Qed.

Lemma contains_trans (x y z : string) : contains x y -> contains y z -> contains x z.
Proof.
  intros (p & q & ->) (p' & q' & ->).
  exists (p' +:+ p), (q +:+ q'). by rewrite !append_assoc.
Qed.

(** Finds [x] among the pieces of a concatenation. *)
Ltac find_part :=
  repeat first
    [ apply contains_here | apply contains_end | apply contains_skip ].

(** ** The monad *)

Section Facts.
Context {W : Type} (X : Ext W).

Local Abbreviation M := (M W).

Lemma bind_inv {A B} (m : M A) (k : A -> M B) s r tr s' :
  bind m k s = (r, tr, s') ->
  (exists a t1 s1 t2,
      m s = (Ok a, t1, s1) /\ k a s1 = (r, t2, s') /\ tr = t1 ++ t2)
  \/ (exists e, m s = (Raise e, tr, s') /\ r = Raise e).
Proof.
  unfold bind. destruct (m s) as [[[a|e] t1] s1].
  - destruct (k a s1) as [[r2 t2] s2] eqn:Hk. intros [= <- <- <-].
    left. by exists a, t1, s1, t2.
  - intros [= <- <- <-]. right. by exists e.
Qed.

Lemma try_except_inv {A} (m : M A) (h : exn -> M A) s r tr s' :
  try_except m h s = (r, tr, s') ->
  (exists a, m s = (Ok a, tr, s') /\ r = Ok a)
  \/ (exists e t1 s1 t2,
        m s = (Raise e, t1, s1) /\ h e s1 = (r, t2, s') /\ tr = t1 ++ t2).
Proof.
  unfold try_except. destruct (m s) as [[[a|e] t1] s1].
  - intros [= <- <- <-]. left. by exists a.
  - destruct (h e s1) as [[r2 t2] s2] eqn:Hh. intros [= <- <- <-].
    right. by exists e, t1, s1, t2.
Qed.

Lemma emit_inv (e : event) (s : St W) r tr s' :
  emit e s = (r, tr, s') -> r = Ok tt /\ tr = [e] /\ s' = s.
Proof. by intros [= <- <- <-]. Qed.

Lemma ret_inv {A} (a : A) (s : St W) r tr s' :
  ret a s = (r, tr, s') -> r = Ok a /\ tr = [] /\ s' = s.
Proof. by intros [= <- <- <-]. Qed.

Lemma ask_inv {A} (f : W -> A * W) (s : St W) r tr s' :
  ask f s = (r, tr, s') ->
  r = Ok (f (world s)).1 /\ tr = []
  /\ s' = mkSt (f (world s)).2 (environ s) (heap s).
Proof. unfold ask. destruct (f (world s)). by intros [= <- <- <-]. Qed.

Lemma st_download_button_inv label data file_name mime (s : St W) r tr s' :
  st_download_button label data file_name mime s = (r, tr, s') ->
  (data = Str (text_of data) /\ r = Ok tt
   /\ tr = [EvDownloadButton label (text_of data) file_name mime] /\ s' = s)
  \/ (exists repr, data = Blocks repr /\ r = Raise invalid_data
                   /\ tr = [] /\ s' = s).
Proof.
  destruct data as [text|repr]; intros [= <- <- <-]; [by left |].
  right. by exists repr.
Qed.

Lemma call_inv {A} (f : W -> outcome A * W) (s : St W) r tr s' :
  call f s = (r, tr, s') ->
  r = (f (world s)).1 /\ tr = []
  /\ s' = mkSt (f (world s)).2 (environ s) (heap s).
Proof. unfold call. destruct (f (world s)). by intros [= <- <- <-]. Qed.

End Facts.

(** Takes a run of the script apart, one statement at a time; a call to
    [run] is left whole. *)
Ltac script_step :=
  match goal with
  | H : bind _ _ _ = (_, _, _) |- _ =>
      apply bind_inv in H;
      destruct H as [(? & ? & ? & ? & ? & H & ?) | (? & H & ?)];
      cbv beta zeta in H
  | H : try_except _ _ _ = (_, _, _) |- _ =>
      apply try_except_inv in H;
      destruct H as [(? & H & ?) | (? & ? & ? & ? & ? & H & ?)];
      cbv beta zeta in H
  | H : emit _ _ = (_, _, _) |- _ =>
      apply emit_inv in H; destruct H as (? & ? & ?)
  | H : ret _ _ = (_, _, _) |- _ =>
      apply ret_inv in H; destruct H as (? & ? & ?)
  | H : ask _ _ = (_, _, _) |- _ =>
      apply ask_inv in H; destruct H as (? & ? & ?)
  | H : call _ _ = (_, _, _) |- _ =>
      apply call_inv in H; destruct H as (? & ? & ?)
  | H : (if ?b then _ else _) _ = (_, _, _) |- _ =>
      let E := fresh "E" in destruct b eqn:E
  | H : st_markdown _ _ _ = _ |- _ => unfold st_markdown in H
  | H : st_error _ _ = _ |- _ => unfold st_error in H
  | H : st_warning _ _ = _ |- _ => unfold st_warning in H
  | H : st_success _ _ = _ |- _ => unfold st_success in H
  | H : st_info _ _ = _ |- _ => unfold st_info in H
  | H : st_expander _ _ = _ |- _ => unfold st_expander in H
  | H : st_spinner _ _ = _ |- _ => unfold st_spinner in H
  | H : st_download_button _ _ _ _ _ = _ |- _ =>
      apply st_download_button_inv in H;
      destruct H as [(? & ? & ? & ?) | (? & ? & ? & ? & ?)]
  | H : st_text_input _ _ _ _ = _ |- _ => unfold st_text_input in H
  | H : st_date_input _ _ _ = _ |- _ => unfold st_date_input in H
  | H : st_button _ _ _ = _ |- _ => unfold st_button in H
  end.

Ltac script_inv := repeat (script_step; simplify_eq).

(** ** [TravelAgent.run] *)

Section RunFacts.
Context {W : Type} (X : Ext W).

Lemma deref_inv (self : ref) (s : St W) r tr s' :
  deref self s = (r, tr, s') ->
  tr = [] /\ s' = s
  /\ ((exists o, heap s !! self = Some o /\ r = Ok o)
      \/ (heap s !! self = None /\ exists e, r = Raise e)).
Proof.
  unfold deref. destruct (heap s !! self) as [o|]; intros [= <- <- <-];
    repeat split; eauto.
Qed.

Lemma store_inv (self : ref) (o : TravelAgent) (s : St W) r tr s' :
  store self o s = (r, tr, s') ->
  r = Ok tt /\ tr = []
  /\ s' = mkSt (world s) (environ s) (<[self := o]> (heap s)).
Proof. by intros [= <- <- <-]. Qed.

Lemma initialize_agent_inv ts l mi es (s : St W) r tr s' :
  initialize_agent X ts l mi es s = (r, tr, s') ->
  tr = [EvInitializeAgent ts l] /\ heap s' = heap s
  /\ (r = Ok (mkExecutor ts l mi es) \/ exists e, r = Raise e).
Proof.
  unfold initialize_agent. intros H. script_inv; simpl; eauto.
Qed.

Lemma model_call_inv self v fp (s : St W) r tr s' :
  model_call X self v fp s = (r, tr, s') ->
  heap s' = heap s
  /\ ((exists rep, r = Ok rep /\ reply_to v rep
                  /\ tr = [EvModelCall self v fp; EvModelReturn self rep])
      \/ (exists e, r = Raise e
                   /\ tr = [EvModelCall self v fp; EvModelRaise self e])).
Proof.
  unfold model_call. destruct v as [ex|l].
  - destruct (ext_agent_run X ex fp (world s)) as [[a|e] w];
      intros [= <- <- <-]; simpl; eauto 6.
  - destruct (ext_llm_invoke X l fp (world s)) as [[a|e] w];
      intros [= <- <- <-]; simpl; eauto 6.
Qed.

(** [run] goes one of the six ways of [run_of]. *)
Lemma run_sound self prompt (s : St W) r tr s' :
  run X self prompt s = (r, tr, s') ->
  run_of self prompt (heap s) r tr (heap s').
Proof.
  unfold run. intros H.
  apply bind_inv in H as [(u & ? & ? & ? & Hu & H & ->) | (? & Hu & ->)];
    apply ask_inv in Hu as (Hr & -> & ->); simplify_eq.
  cbv beta zeta in H.
  apply bind_inv in H as [(ts & ? & ? & ? & Hn & H & ->) | (? & Hn & ->)];
    apply ask_inv in Hn as (Hr & -> & ->); simplify_eq.
  cbv beta zeta in H.
  apply bind_inv in H as [(o & ? & ? & ? & Hd & H & ->) | (? & Hd & ->)];
    apply deref_inv in Hd as (-> & -> & [(o' & Ho & Hr) | (Ho & e' & Hr)]);
    simplify_eq; cbn [heap] in *; [| by constructor].
  cbv beta zeta in H.
  destruct (use_agent o' && agent_truthy (agent o')) eqn:Hb.
  - apply bind_inv in H as [(ex & ? & ? & ? & Hi & H & ->) | (? & Hi & ->)];
      apply initialize_agent_inv in Hi as (-> & Hh & [Hr | (e' & Hr)]);
      simplify_eq; simpl in Hh; [| rewrite Hh; by econstructor].
    cbv beta zeta in H.
    apply bind_inv in H as [([] & ? & ? & ? & Hs & H & ->) | (? & Hs & ->)];
      apply store_inv in Hs as (Hr & -> & ->); simplify_eq.
    cbv beta zeta in H.
    apply bind_inv in H as [(rep & ? & ? & ? & Hm & H & ->) | (? & Hm & ->)];
      apply model_call_inv in Hm as (Hh' & [(rep' & Hr & Hk & ->) | (e' & Hr & ->)]);
      simplify_eq; simpl in Hh'.
    + apply ret_inv in H as (-> & -> & ->). rewrite Hh', Hh.
      destruct rep' as [response|]; [| done]. by econstructor.
    + rewrite Hh', Hh. by econstructor.
  - apply bind_inv in H as [(rep & ? & ? & ? & Hm & H & ->) | (? & Hm & ->)];
      apply model_call_inv in Hm as (Hh' & [(rep' & Hr & Hk & ->) | (e' & Hr & ->)]);
      simplify_eq; simpl in Hh'.
    + apply ret_inv in H as (-> & -> & ->). rewrite Hh'.
      destruct rep' as [|c]; [done |]. by econstructor.
    + rewrite Hh'. by econstructor.
Qed.

Lemma run_has_shape self prompt (s : St W) r tr s' :
  run X self prompt s = (r, tr, s') -> run_shape self prompt r tr.
Proof.
  intros H. apply run_sound in H.
  destruct H as [e ? | o e ? ? | o sid ts e ? ? | o sid ts response ? ?
                | o sid ts e ? ? | o sid ts c ? ?].
  - by apply run_no_call.
  - by apply run_no_call.
  - apply (run_call_raises self prompt e [EvInitializeAgent _ _]); [done |].
    by do 5 eexists.
  - apply (run_call_returns self prompt (TextReply response)
                            [EvInitializeAgent _ _]); [done |].
    by do 5 eexists.
  - apply (run_call_raises self prompt e []); [done |]. by do 5 eexists.
  - apply (run_call_returns self prompt (ChatReply c) []);
      [done |]. by do 5 eexists.
Qed.

End RunFacts.

(** ** Traces *)

Lemma model_events_app (t1 t2 : list event) :
  model_events (t1 ++ t2) = model_events t1 ++ model_events t2.
Proof. apply List.filter_app. Qed.

Lemma model_calls_app (t1 t2 : list event) :
  model_calls (t1 ++ t2) = model_calls t1 ++ model_calls t2.
Proof.
  induction t1 as [|e t1 IH]; [done |].
  destruct e; simpl; by rewrite ?IH.
Qed.

Lemma call_prompts_app (t1 t2 : list event) :
  call_prompts (t1 ++ t2) = call_prompts t1 ++ call_prompts t2.
Proof.
  induction t1 as [|e t1 IH]; [done |].
  destruct e; simpl; by rewrite ?IH.
Qed.

Lemma downloads_app (t1 t2 : list event) :
  downloads (t1 ++ t2) = downloads t1 ++ downloads t2.
Proof. apply List.filter_app. Qed.

Lemma count_events_app f (t1 t2 : list event) :
  count_events f (t1 ++ t2) = count_events f t1 + count_events f t2.
Proof. unfold count_events. by rewrite List.filter_app, length_app. Qed.

Lemma initialize_no_model_events (pre : list event) :
  forallb is_initialize pre = true -> model_events pre = [].
Proof.
  induction pre as [|e pre IH]; [done |].
  destruct e; simpl; try done; intros; by apply IH.
Qed.

Lemma initialize_no_model_calls (pre : list event) :
  forallb is_initialize pre = true -> model_calls pre = [].
Proof.
  induction pre as [|e pre IH]; [done |].
  destruct e; simpl; try done; intros; by apply IH.
Qed.

Lemma initialize_no_call_prompts (pre : list event) :
  forallb is_initialize pre = true -> call_prompts pre = [].
Proof.
  induction pre as [|e pre IH]; [done |].
  destruct e; simpl; try done; intros; by apply IH.
Qed.

Lemma initialize_no_downloads (pre : list event) :
  forallb is_initialize pre = true -> downloads pre = [].
Proof.
  induction pre as [|e pre IH]; [done |].
  destruct e; simpl; try done; intros; by apply IH.
Qed.

Lemma initialize_only (pre : list event) (e : event) :
  forallb is_initialize pre = true -> In e pre -> is_initialize e = true.
Proof.
  intros H Hin. rewrite forallb_forall in H. by apply H.
Qed.

(** ** More on strings *)

Lemma length_append (a b : string) :
  String.length (a +:+ b) = String.length a + String.length b.
Proof.
  induction a as [|x a IH]; [done |].
  change (S (String.length (a +:+ b)) = S (String.length a + String.length b)).
  by rewrite IH.
Qed.

Lemma append_cancel_r (a b c : string) : a +:+ c = b +:+ c -> a = b.
Proof.
  revert b. induction a as [|x a IH]; intros [|y b] H.
  - done.
  - apply (f_equal String.length) in H. rewrite !length_append in H.
    simpl in H. lia.
  - apply (f_equal String.length) in H. rewrite !length_append in H.
    simpl in H. lia.
  - change (String x (a +:+ c) = String y (b +:+ c)) in H.
    injection H as -> H. f_equal. by apply IH.
Qed.

Lemma div_inj (cls a b : string) : div cls a = div cls b -> a = b.
Proof.
  unfold div. intros H.
  do 5 apply String.app_inj in H.
  by apply append_cancel_r in H.
Qed.

Lemma agent_response_not_success_box (a b : string) :
  agent_response a <> success_box b.
Proof.
  unfold agent_response, success_box, div. intros H.
  do 2 apply String.app_inj in H. discriminate H.
Qed.

Lemma section_header_not_success_box (a b : string) :
  div "section-header" a <> success_box b.
Proof.
  unfold success_box, div. intros H.
  do 2 apply String.app_inj in H. discriminate H.
Qed.

(** ** The pipeline *)

Lemma model_events_skip (pre l : list event) :
  forallb is_initialize pre = true -> model_events (pre ++ l) = model_events l.
Proof. intros H. by rewrite model_events_app, initialize_no_model_events. Qed.

Lemma model_calls_skip (pre l : list event) :
  forallb is_initialize pre = true -> model_calls (pre ++ l) = model_calls l.
Proof. intros H. by rewrite model_calls_app, initialize_no_model_calls. Qed.

Lemma call_prompts_skip (pre l : list event) :
  forallb is_initialize pre = true -> call_prompts (pre ++ l) = call_prompts l.
Proof. intros H. by rewrite call_prompts_app, initialize_no_call_prompts. Qed.

Lemma downloads_skip (pre l : list event) :
  forallb is_initialize pre = true -> downloads (pre ++ l) = downloads l.
Proof. intros H. by rewrite downloads_app, initialize_no_downloads. Qed.

(** Writes [reply_text r] for the text of the value of a reply. *)
Ltac fold_reply_text :=
  repeat match goal with
         | |- context [text_of (reply_value ?r)] =>
             change (text_of (reply_value r)) with (reply_text r)
         | H : context [text_of (reply_value ?r)] |- _ =>
             change (text_of (reply_value r)) with (reply_text r) in H
         end.

(** Every way [generate_plan] can go: the body taken apart, and each [run]
    replaced by its shape. *)
Ltac plan_cases H :=
  unfold generate_plan in H; script_inv;
  repeat match goal with
         | R : run _ _ _ _ = _ |- _ =>
             apply run_has_shape in R; inversion R; clear R; subst
         end;
  fold_reply_text;
  rewrite <- ?app_assoc; cbn [app].

Ltac read_trace :=
  repeat first
    [ progress cbn [model_events model_calls call_prompts downloads
                    List.filter is_model_event is_download app]
    | rewrite call_prompts_skip by assumption
    | rewrite initialize_no_call_prompts by assumption
    | rewrite model_events_skip by assumption
    | rewrite model_calls_skip by assumption
    | rewrite downloads_skip by assumption
    | rewrite initialize_no_model_events by assumption
    | rewrite initialize_no_model_calls by assumption
    | rewrite initialize_no_downloads by assumption ].

Section PlanFacts.
Context {W : Type} (X : Ext W).

(** C1, as the code has it: in every run of the pipeline the calls to the
    model are made one at a time, each returning before the next starts, by
    the research agent, the planner, the budget expert, the local expert and
    the summarizer in this order with none left out in between; a run that
    no exception ends makes all five, and a run that an exception ends makes
    the first of them, up to the failing step. *)
Theorem calls_in_order agents t (s : St W) :
  let x := generate_plan X agents t s in
  sequential (model_events (trace_of x)) = true
  /\ model_calls (trace_of x) `prefix_of` call_order agents
  /\ (result_of x = Ok tt -> model_calls (trace_of x) = call_order agents).
Proof.
  intros x. subst x.
  destruct (generate_plan X agents t s) as [[r tr] s'] eqn:H.
  unfold trace_of, result_of. cbn [fst snd].
  plan_cases H; read_trace.
  all: cbn [sequential]; rewrite ?Nat.eqb_refl.
  all: (split; [done | split; [by eexists | done]]).
Qed.

End PlanFacts.

Lemma sent_contains (prompt fp : string) : sent prompt fp -> contains prompt fp.
Proof.
  intros (sid & ts & ro & go & bs & ->). unfold full_prompt. find_part.
Qed.

Lemma summary_prompt_contains (f i b l : string) :
  contains f (summary_prompt f i b l) /\ contains i (summary_prompt f i b l)
  /\ contains b (summary_prompt f i b l) /\ contains l (summary_prompt f i b l).
Proof. unfold summary_prompt. repeat split; find_part. Qed.

(** Where an event of the trace can be: splits [In e tr] along the trace,
    dropping the places that hold another kind of event. *)
Ltac where_in Hin :=
  repeat match type of Hin with
         | In _ (_ ++ _) =>
             apply in_app_or in Hin as [Hin | Hin];
             [ by (eapply initialize_only in Hin; [| eassumption]) |]
         | In _ (_ :: _) => destruct Hin as [Hin | Hin]; [try discriminate Hin |]
         | In _ [] => destruct Hin
         | In _ ?l => by (eapply initialize_only in Hin; [| eassumption])
         end.

Lemma error_box_contains (e : exn) : contains e (error_box e).
Proof.
  unfold error_box, div. rewrite !append_assoc. find_part.
Qed.

Section PlanFacts2.
Context {W : Type} (X : Ext W).

(** C3: in a run that completes, the model is called five times and the
    fifth call, the only one made with the summary prompt, is the
    summarizer's; the prompt it sends contains the texts the research agent,
    the planner, the budget expert and the local expert returned; and the
    plan shown in the success box is the text of the summarizer's reply,
    and no other. *)
Theorem summary_of_four_reports agents t (s : St W) :
  result_of (generate_plan X agents t s) = Ok tt ->
  exists v1 p1 r1 v2 p2 r2 v3 p3 r3 v4 p4 r4 v5 p5 r5,
    model_events (trace_of (generate_plan X agents t s)) =
      [EvModelCall (researcher agents) v1 p1;
       EvModelReturn (researcher agents) r1;
       EvModelCall (planner agents) v2 p2;
       EvModelReturn (planner agents) r2;
       EvModelCall (budget_expert agents) v3 p3;
       EvModelReturn (budget_expert agents) r3;
       EvModelCall (local_expert agents) v4 p4;
       EvModelReturn (local_expert agents) r4;
       EvModelCall (summarizer agents) v5 p5;
       EvModelReturn (summarizer agents) r5]
    /\ sent (summary_prompt (reply_text r1) (reply_text r2) (reply_text r3)
                           (reply_text r4)) p5
    /\ contains (reply_text r1) p5 /\ contains (reply_text r2) p5
    /\ contains (reply_text r3) p5 /\ contains (reply_text r4) p5
    /\ (forall body,
          In (EvMarkdown (success_box body) true)
             (trace_of (generate_plan X agents t s))
          <-> body = reply_text r5).
Proof.
  destruct (generate_plan X agents t s) as [[r tr] s'] eqn:H.
  unfold trace_of, result_of. cbn [fst snd]. intros ->.
  plan_cases H.
  do 15 eexists. split; [read_trace; reflexivity |].
  match goal with
  | S : sent (summary_prompt ?f ?i ?b ?l) ?p |- _ =>
      pose proof (sent_contains _ _ S) as C;
      destruct (summary_prompt_contains f i b l) as (C1 & C2 & C3 & C4)
  end.
  split; [eassumption |].
  repeat (split; [eapply contains_trans; eassumption |]).
  intros body. split.
  - intros Hin. where_in Hin.
    assert (success_box (reply_text rep) = success_box body) as E
      by congruence.
    symmetry. by apply div_inj in E.
  - intros ->. repeat (rewrite in_app_iff || cbn [In]). tauto.
Qed.

(** C7: in a run that completes, one download is offered: its data is the
    text the summarizer returned, its mime type text/plain, and its name
    travel_plan_, the destination with each space replaced by an underscore,
    an underscore, the start date and .txt. *)
Theorem download_is_the_plan agents t (s : St W) :
  result_of (generate_plan X agents t s) = Ok tt ->
  exists plan,
    last (model_events (trace_of (generate_plan X agents t s)))
    = Some (EvModelReturn (summarizer agents) plan)
    /\ downloads (trace_of (generate_plan X agents t s))
       = [EvDownloadButton "📥 Download Travel Plan" (reply_text plan)
            ("travel_plan_" +:+ replace_char " " "_" (destination t) +:+ "_"
             +:+ date_str (start_date t) +:+ ".txt")
            "text/plain"].
Proof.
  destruct (generate_plan X agents t s) as [[r tr] s'] eqn:H.
  unfold trace_of, result_of. cbn [fst snd]. intros ->.
  plan_cases H. eexists. read_trace. split; reflexivity.
Qed.

End PlanFacts2.

(** ** Prompts *)

Lemma in_order_here (p : string) (ps : list string) (rest : string) :
  in_order ps rest -> in_order (p :: ps) (p +:+ rest).
Proof. intros H. by exists "", rest. Qed.

Lemma in_order_last (p : string) : in_order [p] p.
Proof. exists "", "". split; [by rewrite append_empty_r | done]. Qed.

Lemma in_order_skip (p : string) (ps : list string) (pre s : string) :
  in_order (p :: ps) s -> in_order (p :: ps) (pre +:+ s).
Proof.
  intros (a & rest & -> & H). exists (pre +:+ a), rest.
  split; [by rewrite append_assoc | done].
Qed.

Lemma full_prompt_in_order (sid ts ro go bs p : string) :
  in_order [ro; go; bs; p] (full_prompt sid ts ro go bs p).
Proof.
  unfold full_prompt.
  repeat first [ apply in_order_here | apply in_order_last | apply in_order_skip ].
Qed.

Lemma research_query_contains (t : Trip) :
  contains (origin t) (research_query t)
  /\ contains (destination t) (research_query t)
  /\ contains (date_str (start_date t)) (research_query t)
  /\ contains (date_str (end_date t)) (research_query t).
Proof. unfold research_query. repeat split; find_part. Qed.

Lemma itinerary_query_contains (t : Trip) :
  contains (destination t) (itinerary_query t)
  /\ contains (date_str (start_date t)) (itinerary_query t)
  /\ contains (date_str (end_date t)) (itinerary_query t)
  /\ contains (interests t) (itinerary_query t).
Proof. unfold itinerary_query. repeat split; find_part. Qed.

Lemma budget_query_contains (t : Trip) :
  contains (budget t) (budget_query t)
  /\ contains (destination t) (budget_query t)
  /\ contains (date_str (start_date t)) (budget_query t)
  /\ contains (date_str (end_date t)) (budget_query t).
Proof. unfold budget_query. repeat split; find_part. Qed.

Lemma local_query_contains (t : Trip) :
  contains (destination t) (local_query t)
  /\ contains (date_str (start_date t)) (local_query t)
  /\ contains (date_str (end_date t)) (local_query t)
  /\ contains (interests t) (local_query t).
Proof. unfold local_query. repeat split; find_part. Qed.

Section PromptFacts.
Context {W : Type} (X : Ext W).

(** C6: the prompts of the four report steps are built from the form
    values: whatever prompts a run of the pipeline sends to the model, the
    first holds the research query, the second the itinerary query, the
    third the budget query and the fourth the local query; a run that
    completes has sent five prompts, so all four queries have reached the
    model, each in the prompt of its own step; and the research query
    contains the origin, the destination, the start date and the end date,
    the itinerary query the destination, both dates and the interests, the
    budget query the budget, the destination and both dates, and the local
    query the destination, both dates and the interests. *)
Theorem trip_reaches_prompts agents (t : Trip) (s : St W) :
  let sent_prompts := call_prompts (trace_of (generate_plan X agents t s)) in
  Forall2 contains (take (length sent_prompts) (step_queries t))
          (take 4 sent_prompts)
  /\ (result_of (generate_plan X agents t s) = Ok tt ->
      exists p1 p2 p3 p4 p5,
        sent_prompts = [p1; p2; p3; p4; p5]
        /\ sent (research_query t) p1 /\ contains (research_query t) p1
        /\ sent (itinerary_query t) p2 /\ contains (itinerary_query t) p2
        /\ sent (budget_query t) p3 /\ contains (budget_query t) p3
        /\ sent (local_query t) p4 /\ contains (local_query t) p4)
  /\ (contains (origin t) (research_query t)
      /\ contains (destination t) (research_query t)
      /\ contains (date_str (start_date t)) (research_query t)
      /\ contains (date_str (end_date t)) (research_query t))
  /\ (contains (destination t) (itinerary_query t)
      /\ contains (date_str (start_date t)) (itinerary_query t)
      /\ contains (date_str (end_date t)) (itinerary_query t)
      /\ contains (interests t) (itinerary_query t))
  /\ (contains (budget t) (budget_query t)
      /\ contains (destination t) (budget_query t)
      /\ contains (date_str (start_date t)) (budget_query t)
      /\ contains (date_str (end_date t)) (budget_query t))
  /\ (contains (destination t) (local_query t)
      /\ contains (date_str (start_date t)) (local_query t)
      /\ contains (date_str (end_date t)) (local_query t)
      /\ contains (interests t) (local_query t)).
Proof.
  intros sp. subst sp.
  split; [| split;
            [| auto using research_query_contains, itinerary_query_contains,
                          budget_query_contains, local_query_contains]].
  - destruct (generate_plan X agents t s) as [[r tr] s'] eqn:H.
    unfold trace_of. cbn [fst snd].
    plan_cases H; read_trace; cbn [length take step_queries];
      repeat constructor; by apply sent_contains.
  - destruct (generate_plan X agents t s) as [[r tr] s'] eqn:H.
    unfold trace_of, result_of. cbn [fst snd]. intros ->.
    plan_cases H. read_trace. do 5 eexists. split; [reflexivity |].
    repeat split; first [ eassumption | by apply sent_contains ].
Qed.

(** C9: whatever object [self] is and whatever the prompt, every prompt
    [run] sends to the model contains the object's role, its goal, its
    backstory and the prompt given, in this order; and a [run] that returns
    has sent exactly one. *)
Theorem full_prompt_carries_agent self prompt (s : St W) o :
  heap s !! self = Some o ->
  Forall (prompt_carries [role o; goal o; backstory o; prompt])
         (trace_of (run X self prompt s))
  /\ (forall r, result_of (run X self prompt s) = Ok r ->
                model_calls (trace_of (run X self prompt s)) = [self]).
Proof.
  intros Ho.
  destruct (run X self prompt s) as [[r tr] s'] eqn:H.
  unfold trace_of, result_of. cbn [fst snd].
  apply run_sound in H.
  destruct H; simplify_eq; (split; [| done]);
    repeat constructor; apply full_prompt_in_order.
Qed.

End PromptFacts.

(** ** The form *)

Lemma count_events_cons f (e : event) (l : list event) :
  count_events f (e :: l) = (if f e then 1 else 0) + count_events f l.
Proof. unfold count_events. simpl. by destruct (f e). Qed.

Lemma initialize_count f (pre : list event) :
  (forall ts l, f (EvInitializeAgent ts l) = false) ->
  forallb is_initialize pre = true -> count_events f pre = 0.
Proof.
  intros Hf. induction pre as [|e pre IH]; [done |].
  rewrite count_events_cons.
  destruct e; simpl; try done. intros. by rewrite Hf, IH.
Qed.

(** Counts the widgets of a trace. *)
Ltac count_widgets :=
  repeat first
    [ rewrite count_events_cons
    | rewrite count_events_app
    | rewrite (initialize_count is_input_field) by done
    | rewrite (initialize_count is_submit) by done
    | rewrite (initialize_count is_model_return) by done ];
  cbn [is_input_field is_submit is_model_return count_events List.filter
       length Nat.add].

Section FormFacts.
Context {W : Type} (X : Ext W).

Lemma trip_details_inv (s : St W) r tr s' :
  trip_details X s = (r, tr, s') ->
  exists t, r = Ok t /\ model_calls tr = []
            /\ count_events is_input_field tr = 6
            /\ count_events is_submit tr = 0
            /\ heap s' = heap s.
Proof.
  unfold trip_details. intros H. script_inv. by eexists.
Qed.

Lemma generate_plan_no_widgets agents t (s : St W) :
  count_events is_input_field (trace_of (generate_plan X agents t s)) = 0
  /\ count_events is_submit (trace_of (generate_plan X agents t s)) = 0.
Proof.
  destruct (generate_plan X agents t s) as [[r tr] s'] eqn:H.
  unfold trace_of. cbn [fst snd].
  plan_cases H; count_widgets; done.
Qed.

Lemma all_filled_false (t : Trip) :
  origin t = "" \/ destination t = ""
  \/ date_truthy (start_date t) = false \/ date_truthy (end_date t) = false
  \/ budget t = "" \/ interests t = "" ->
  all_filled t = false.
Proof.
  unfold all_filled, date_truthy, str_truthy. simpl.
  intros [-> | [-> | [? | [? | [-> | ->]]]]]; try done; simpl;
    rewrite ?andb_false_r; done.
Qed.

(** C8: a submission that fails validation reaches no agent: when the
    start date is on or after the end date, or when the button was pressed
    and one of the six form values is empty, the script makes no call to the
    model, and the last thing it does is to show the error message of the
    failed check. *)
Theorem invalid_submission_calls_no_agent agents (s : St W) t :
  result_of (trip_details X s) = Ok t ->
  date_geb (start_date t) (end_date t) = true
  \/ ((ext_button X "🚀 Generate Travel Plan"
                  (world (state_of (trip_details X s)))).1 = true
      /\ (origin t = "" \/ destination t = ""
          \/ date_truthy (start_date t) = false
          \/ date_truthy (end_date t) = false
          \/ budget t = "" \/ interests t = "")) ->
  let x := plan_trip X agents s in
  model_calls (trace_of x) = []
  /\ exists msg,
       last (trace_of x) = Some (EvError msg)
       /\ (msg = "❌ End date must be after start date!"
           \/ msg = "❌ Please fill in all fields!").
Proof.
  intros Ht Hbad x. subst x. unfold plan_trip, bind.
  destruct (trip_details X s) as [[r tr] s1] eqn:Hd.
  unfold result_of, state_of in *. cbn [fst snd] in *. subst r.
  apply trip_details_inv in Hd as (t' & [= <-] & Hc & _).
  destruct (date_geb (start_date t) (end_date t)) eqn:Hdate.
  - cbn. rewrite model_calls_app, Hc. split; [done |].
    eexists. rewrite last_snoc. eauto.
  - destruct Hbad as [? | [Hb He]]; [done |].
    apply all_filled_false in He.
    unfold st_button, bind, emit, ask.
    destruct (ext_button X _ (world s1)) as [clicked w]. cbn [fst] in Hb.
    subst clicked. rewrite He. cbn.
    rewrite model_calls_app, Hc. split; [done |].
    eexists.
    change (tr ++ [EvButton "🚀 Generate Travel Plan"; EvError "❌ Please fill in all fields!"])
      with (tr ++ [EvButton "🚀 Generate Travel Plan"] ++ [EvError "❌ Please fill in all fields!"]).
    rewrite app_assoc, last_snoc. eauto.
Qed.

(** C2, as the code has it: the form consists of six input fields (four
    text inputs and two date inputs), whatever the run does next; the submit
    button is shown once when the start date is before the end date, and not
    at all otherwise. *)
Theorem form_has_six_inputs agents (s : St W) t :
  result_of (trip_details X s) = Ok t ->
  let x := plan_trip X agents s in
  input_fields (trace_of x) = 6
  /\ submit_actions (trace_of x)
     = (if date_geb (start_date t) (end_date t) then 0 else 1).
Proof.
  intros Ht x. subst x. unfold input_fields, submit_actions.
  destruct (plan_trip X agents s) as [[r tr] s'] eqn:H.
  unfold plan_trip in H.
  apply bind_inv in H as [(t' & tr0 & s1 & tr1 & Hd & H & ->) | (e & Hd & ->)];
    rewrite Hd in Ht; unfold result_of in Ht; cbn [fst snd] in Ht;
    [| done].
  injection Ht as ->.
  apply trip_details_inv in Hd as (? & _ & _ & Hi & Hs & _).
  unfold trace_of. cbn [fst snd]. rewrite !count_events_app, Hi, Hs.
  cbv beta zeta in H.
  destruct (date_geb (start_date t) (end_date t)).
  { script_inv. by count_widgets. }
  unfold footer in H.
  script_inv; count_widgets; try done.
  all: repeat match goal with
         | G : generate_plan X ?a ?t ?s = _ |- _ =>
             destruct (generate_plan_no_widgets a t s) as [G1 G2];
             rewrite G in G1, G2; unfold trace_of in G1, G2;
             cbn [fst snd] in G1, G2; clear G
         end; unfold report_failure in *; script_inv; count_widgets; lia.
Qed.

End FormFacts.

(** ** A failing run *)

Section FailureFacts.
Context {W : Type} (X : Ext W).

(** Where the plan of a failing run comes from: a run that raises calls the
    agents in order and offers no download; it shows a plan only when all
    five agents had returned and the summarizer's content was a list, which
    [st.download_button] then refused. *)
Lemma failing_run agents t (s : St W) e :
  result_of (generate_plan X agents t s) = Raise e ->
  let x := try_except (generate_plan X agents t) report_failure s in
  result_of x = Ok tt
  /\ trace_of x
     = trace_of (generate_plan X agents t s)
       ++ [EvMarkdown (error_box e) true;
           EvInfo "💡 Please check that all API keys are correctly configured in your Streamlit secrets."]
  /\ sequential (model_events (trace_of x)) = true
  /\ model_calls (trace_of x) `prefix_of` call_order agents
  /\ downloads (trace_of x) = []
  /\ (forall a e',
        In (EvModelRaise a e') (trace_of x) ->
        e' = e /\ steps_returned (trace_of x) < 5)
  /\ (forall plan,
        In (EvMarkdown (success_box plan) true) (trace_of x) ->
        e = invalid_data
        /\ steps_returned (trace_of x) = 5
        /\ exists r5,
             last (model_events (trace_of x))
             = Some (EvModelReturn (summarizer agents) r5)
             /\ reply_value r5 = Blocks plan).
Proof.
  intros Hr x. subst x. unfold try_except.
  destruct (generate_plan X agents t s) as [[r tr] s'] eqn:H.
  unfold trace_of, result_of in *. cbn [fst snd] in *. subst r.
  cbn [report_failure st_markdown st_info bind emit fst snd app].
  split; [done |]. split; [done |].
  plan_cases H.
  all: rewrite <- ?app_assoc; cbn [app]; read_trace.
  all: cbn [sequential]; rewrite ?Nat.eqb_refl.
  all: split; [done |]; split; [by eexists |]; split; [done |].
  all: split;
    [ intros a e' Hin; where_in Hin; injection Hin as -> ->;
      (split; [done | unfold steps_returned; count_widgets; lia]) |].
  all: intros plan Hin; where_in Hin.
  all: try (exfalso; injection Hin as Hin;
            first [ by apply agent_response_not_success_box in Hin
                  | unfold error_box, success_box, div in Hin;
                    do 2 apply String.app_inj in Hin; discriminate Hin ]).
  split; [done |].
  split; [unfold steps_returned; count_widgets; done |].
  assert (success_box (reply_text rep) = success_box plan) as E by congruence.
  apply div_inj in E. eexists. split; [reflexivity |].
  unfold reply_text in E.
  match goal with B : reply_value rep = Blocks _ |- _ => rewrite B in E |- * end.
  cbn in E. by subst.
Qed.

Lemma trip_details_plain (s : St W) r tr s' :
  trip_details X s = (r, tr, s') ->
  model_events tr = [] /\ model_calls tr = [] /\ downloads tr = []
  /\ steps_returned tr = 0
  /\ forall plan, ~ In (EvMarkdown (success_box plan) true) tr.
Proof.
  unfold trip_details. intros H. script_inv.
  repeat split; try done.
  intros plan Hin. cbn [app] in Hin.
  repeat match type of Hin with
         | In _ (_ :: _) => destruct Hin as [Hin | Hin]; [try discriminate Hin |]
         | In _ [] => destruct Hin
         end.
Qed.

(** A valid submission: what [plan_trip] does around the [try] statement. *)
Lemma plan_trip_submitted agents (s : St W) t :
  result_of (trip_details X s) = Ok t ->
  date_geb (start_date t) (end_date t) = false ->
  result_of (st_button X "🚀 Generate Travel Plan"
                       (state_of (trip_details X s))) = Ok true ->
  all_filled t = true ->
  let s1 := state_of (st_button X "🚀 Generate Travel Plan"
                                (state_of (trip_details X s))) in
  let body := try_except (generate_plan X agents t) report_failure s1 in
  result_of (plan_trip X agents s) = Ok tt
  /\ trace_of (plan_trip X agents s)
     = trace_of (trip_details X s)
       ++ [EvButton "🚀 Generate Travel Plan"; EvProgress 0]
       ++ trace_of body
       ++ [EvMarkdown "---" false;
           EvMarkdown "🤖 Powered by AI agents with real-time search capabilities | Auto-configured for instant use" false].
Proof.
  intros Ht Hdate Hb Hall s1 body. subst body s1.
  unfold plan_trip, bind.
  destruct (trip_details X s) as [[r tr] s1] eqn:Hd.
  unfold result_of, trace_of, state_of in *. cbn [fst snd] in *. subst r.
  rewrite Hdate.
  unfold st_button, bind, emit, ask in *.
  destruct (ext_button X _ (world s1)) as [clicked w]. cbn [fst snd] in *.
  injection Hb as ->. rewrite Hall. cbn [negb].
  unfold try_except.
  destruct (generate_plan X agents t _) as [[[[]|e] trg] sg];
    cbn [footer report_failure st_markdown st_info bind emit fst snd app];
    rewrite <- ?app_assoc; cbn [app]; done.
Qed.

(** C5: when the pipeline started by a valid submission raises, the script
    goes on: after what the pipeline had shown it shows one error box, which
    contains the text of the exception, a hint, and the footer.  The calls
    made are the first of the five steps, one at a time and each once, so no
    step is tried again and none is called after the failing one; the
    exception a call to the model raised is the one reported; and no
    download is offered.  When a step raises, fewer than five have
    returned, and no plan is shown.  A plan is on screen in a failing run in
    one case only: all five steps had returned, the summarizer's content was
    a list of blocks, shown as the plan, and [st.download_button] refused
    it; that plan is the whole of the summarizer's answer, not a part. *)
Theorem failure_is_reported agents (s : St W) t e :
  result_of (trip_details X s) = Ok t ->
  date_geb (start_date t) (end_date t) = false ->
  result_of (st_button X "🚀 Generate Travel Plan"
                       (state_of (trip_details X s))) = Ok true ->
  all_filled t = true ->
  let s1 := state_of (st_button X "🚀 Generate Travel Plan"
                                (state_of (trip_details X s))) in
  result_of (generate_plan X agents t s1) = Raise e ->
  let x := plan_trip X agents s in
  result_of x = Ok tt
  /\ trace_of x
     = trace_of (trip_details X s)
       ++ [EvButton "🚀 Generate Travel Plan"; EvProgress 0]
       ++ trace_of (generate_plan X agents t s1)
       ++ [EvMarkdown (error_box e) true;
           EvInfo "💡 Please check that all API keys are correctly configured in your Streamlit secrets.";
           EvMarkdown "---" false;
           EvMarkdown "🤖 Powered by AI agents with real-time search capabilities | Auto-configured for instant use" false]
  /\ contains e (error_box e)
  /\ sequential (model_events (trace_of x)) = true
  /\ model_calls (trace_of x) `prefix_of` call_order agents
  /\ model_events (trace_of x)
     = model_events (trace_of (generate_plan X agents t s1))
  /\ downloads (trace_of x) = []
  /\ (forall a e',
        In (EvModelRaise a e') (trace_of x) ->
        e' = e /\ steps_returned (trace_of x) < 5)
  /\ (steps_returned (trace_of x) < 5 ->
      forall plan, ~ In (EvMarkdown (success_box plan) true) (trace_of x))
  /\ (forall plan,
        In (EvMarkdown (success_box plan) true) (trace_of x) ->
        e = invalid_data
        /\ steps_returned (trace_of x) = 5
        /\ exists r5,
             last (model_events (trace_of x))
             = Some (EvModelReturn (summarizer agents) r5)
             /\ reply_value r5 = Blocks plan).
Proof.
  intros Ht Hdate Hb Hall s1 Hr x. subst x.
  destruct (plan_trip_submitted agents s t Ht Hdate Hb Hall) as [R T].
  destruct (failing_run agents t s1 e Hr) as (_ & F & Fs & Fp & Fd & Fr & Fb).
  cbv zeta in *. fold s1 in T, F, Fs, Fp, Fd, Fr, Fb.
  destruct (trip_details_plain s (result_of (trip_details X s))
              (trace_of (trip_details X s)) (state_of (trip_details X s)))
    as (Pe & Pc & Pd & Pr & Pb); [by destruct (trip_details X s) as [[??]?] |].
  set (form := trace_of (trip_details X s)) in *.
  set (body := trace_of (try_except (generate_plan X agents t) report_failure s1)) in *.
  assert (model_events (trace_of (plan_trip X agents s)) = model_events body) as Me.
  { rewrite T, !model_events_app, Pe. cbn. apply app_nil_r. }
  assert (model_calls (trace_of (plan_trip X agents s)) = model_calls body) as Mc.
  { rewrite T, !model_calls_app, Pc. cbn. apply app_nil_r. }
  assert (downloads (trace_of (plan_trip X agents s)) = downloads body) as Md.
  { rewrite T, !downloads_app, Pd. cbn. apply app_nil_r. }
  assert (steps_returned (trace_of (plan_trip X agents s)) = steps_returned body) as Mr.
  { unfold steps_returned in *. rewrite T, !count_events_app, Pr.
    rewrite !count_events_cons. cbn. lia. }
  assert (forall plan, In (EvMarkdown (success_box plan) true)
                          (trace_of (plan_trip X agents s))
                       -> In (EvMarkdown (success_box plan) true) body) as Mb.
  { intros plan. rewrite T, !in_app_iff. cbn [In].
    intros [Hin | [[Hin | [Hin | []]] | [Hin | [Hin | [Hin | []]]]]];
      try discriminate Hin; [by apply Pb in Hin | done]. }
  assert (forall a e', In (EvModelRaise a e') (trace_of (plan_trip X agents s))
                       -> In (EvModelRaise a e') body) as Mx.
  { intros a e'. rewrite T, !in_app_iff. cbn [In].
    intros [Hin | [[Hin | [Hin | []]] | [Hin | [Hin | [Hin | []]]]]];
      try discriminate Hin; [| done].
    exfalso. assert (In (EvModelRaise a e') (model_events form)) as Hm
      by (apply filter_In; by split).
    rewrite Pe in Hm. destruct Hm. }
  split; [done |].
  split; [rewrite T; subst body; rewrite F, <- !app_assoc; reflexivity |].
  split; [apply error_box_contains |].
  rewrite Me, Mc, Md, Mr.
  split; [done |]. split; [done |].
  split; [subst body; rewrite F, model_events_app; cbn; apply app_nil_r |].
  split; [done |].
  split; [intros a e' Hin; apply (Fr a e'), Mx, Hin |].
  split.
  - intros Hlt plan Hin. apply Mb, Fb in Hin. lia.
  - intros plan Hin. apply (Fb plan), Mb, Hin.
Qed.

(** In a run that completes, the content the summarizer returned is a
    [str]: [st.download_button] has accepted it. *)
Lemma completed_plan_is_text agents t (s : St W) :
  result_of (generate_plan X agents t s) = Ok tt ->
  exists r5,
    last (model_events (trace_of (generate_plan X agents t s)))
    = Some (EvModelReturn (summarizer agents) r5)
    /\ reply_value r5 = Str (reply_text r5).
Proof.
  destruct (generate_plan X agents t s) as [[r tr] s'] eqn:H.
  unfold trace_of, result_of. cbn [fst snd]. intros ->.
  plan_cases H. eexists. read_trace. split; [reflexivity |].
  unfold reply_text. assumption.
Qed.

End FailureFacts.

(** ** Agents and their tools *)

Section AgentFacts.
Context {W : Type} (X : Ext W).

Lemma alloc_inv (o : TravelAgent) (s : St W) r tr s' :
  alloc o s = (r, tr, s') ->
  r = Ok (length (heap s)) /\ tr = [] /\ heap s' = heap s ++ [o].
Proof. by intros [= <- <- <-]. Qed.

Lemma TravelAgent_init_inv name role goal backstory l ts ua (s : St W) r tr s' :
  TravelAgent_init X name role goal backstory l ts ua s = (r, tr, s') ->
  (exists e, r = Raise e /\ heap s' = heap s
             /\ ua && list_truthy ts = true
             /\ tr = [EvInitializeAgent ts l])
  \/ (r = Ok (length (heap s))
      /\ heap s'
         = heap s
           ++ [mkTravelAgent name role goal backstory l ts ua
                 (if ua && list_truthy ts
                  then Some (mkExecutor ts l None None) else None)]
      /\ tr = if ua && list_truthy ts then [EvInitializeAgent ts l] else []).
Proof.
  unfold TravelAgent_init. intros H.
  apply bind_inv in H as [(a & t1 & s1 & t2 & Ha & H & ->) | (e & Ha & ->)].
  - apply alloc_inv in H as (-> & -> & ->). right.
    destruct (ua && list_truthy ts).
    + apply bind_inv in Ha as [(ex & ? & ? & ? & Hi & Ha & ->) | (? & Hi & ?)];
        [| done].
      apply initialize_agent_inv in Hi as (-> & Hh & [Hr | (e' & Hr)]);
        simplify_eq.
      apply ret_inv in Ha as (? & -> & ->). simplify_eq.
      rewrite Hh. done.
    + apply ret_inv in Ha as (? & -> & ->). by simplify_eq.
  - left. destruct (ua && list_truthy ts).
    + apply bind_inv in Ha as [(ex & ? & ? & ? & Hi & Ha & ->) | (? & Hi & ?)].
      * by apply ret_inv in Ha as (? & _).
      * apply initialize_agent_inv in Hi as (-> & Hh & _). eauto.
    + by apply ret_inv in Ha as (? & _).
Qed.


Lemma build_agents_inv l ts (s : St W) agents tr s' :
  build_agents X l ts s = (Ok agents, tr, s') ->
  exists o1 o2 o3 o4 o5,
    heap s' = heap s ++ [o1; o2; o3; o4; o5]
    /\ agents = mkAgents (length (heap s)) (length (heap s) + 1)
                         (length (heap s) + 2) (length (heap s) + 3)
                         (length (heap s) + 4)
    /\ Forall (fun o => use_agent o = true /\ tools o = ts /\ llm o = l
                        /\ agent o = if list_truthy ts
                                     then Some (mkExecutor ts l None None)
                                     else None)
              [o1; o2; o3; o4]
    /\ use_agent o5 = false /\ tools o5 = [] /\ agent o5 = None
    /\ forallb is_initialize tr = true
    /\ (ts = [] -> tr = []).
Proof.
  unfold build_agents, research_agent_init, itinerary_agent_init,
    budget_agent_init, local_expert_agent_init, summarizer_agent_init.
  intros H.
  repeat match goal with
         | H : bind (TravelAgent_init _ _ _ _ _ _ _ _) _ _ = (Ok _, _, _) |- _ =>
             apply bind_inv in H as [(? & ? & ? & ? & Hi & H & ->) | (? & _ & ?)];
             [| done];
             apply TravelAgent_init_inv in Hi
               as [(? & ? & _) | ([= ->] & ? & ->)]; [done |];
             cbv beta zeta in H
         end.
  apply ret_inv in H as ([= ->] & -> & ->).
  repeat match goal with E : heap _ = _ |- _ => rewrite E; clear E end.
  rewrite <- !app_assoc, !length_app. cbn [app length andb].
  do 5 eexists. split; [reflexivity |].
  split; [f_equal; lia |].
  split; [repeat constructor |].
  do 3 (split; [done |]).
  split.
  - by destruct (list_truthy ts).
  - by intros ->.
Qed.

Lemma run_of_keeps (P : TravelAgent -> Prop) self prompt h r tr h' :
  (forall o, P o -> use_agent o && agent_truthy (agent o) = true ->
             P (set_agent (Some (rebuilt o)) o)) ->
  run_of self prompt h r tr h' ->
  forall (a : ref) o, h !! a = Some o -> P o -> exists o', h' !! a = Some o' /\ P o'.
Proof.
  intros HP Hrun a o Ha Po.
  destruct Hrun as [e ? | o1 e ? ? | o1 sid ts e Hs Hb | o1 sid ts resp Hs Hb
                   | o1 sid ts e ? ? | o1 sid ts c ? ?]; eauto.
  - destruct (decide (a = self)) as [-> | Hne].
    + rewrite list_lookup_insert_eq by (by eapply lookup_lt_Some).
      assert (o = o1) as -> by congruence.
      eexists. split; [reflexivity | by apply HP].
    + rewrite list_lookup_insert_ne by done. eauto.
  - destruct (decide (a = self)) as [-> | Hne].
    + rewrite list_lookup_insert_eq by (by eapply lookup_lt_Some).
      assert (o = o1) as -> by congruence.
      eexists. split; [reflexivity | by apply HP].
    + rewrite list_lookup_insert_ne by done. eauto.
Qed.

Lemma search_agent_stable ts (o : TravelAgent) :
  search_agent ts o -> use_agent o && agent_truthy (agent o) = true ->
  search_agent ts (set_agent (Some (rebuilt o)) o).
Proof. by intros (? & ? & ?) _. Qed.

Lemma direct_agent_stable (o : TravelAgent) :
  direct_agent o -> use_agent o && agent_truthy (agent o) = true ->
  direct_agent (set_agent (Some (rebuilt o)) o).
Proof. unfold direct_agent. congruence. Qed.

Lemma run_of_tool_calls who ts self prompt h r tr h' :
  (forall a : ref, In a who -> exists o, h !! a = Some o /\ search_agent ts o) ->
  run_of self prompt h r tr h' ->
  Forall (tool_call_of who ts) tr.
Proof.
  intros Hwho Hrun.
  destruct Hrun as [e ? | o1 e ? ? | o1 sid ts' e Hs Hb | o1 sid ts' resp Hs Hb
                   | o1 sid ts' e Hs Hb | o1 sid ts' c Hs Hb];
    repeat constructor; simpl; intros Hin;
    destruct (Hwho _ Hin) as (o & Ho & Hu & Ht & Ha);
    assert (o = o1) as -> by congruence; try done.
  - by rewrite Hu, Ha in Hb.
  - by rewrite Hu, Ha in Hb.
Qed.

Lemma run_of_direct_calls who self prompt h r tr h' :
  (forall a : ref, In a who -> exists o, h !! a = Some o /\ direct_agent o) ->
  run_of self prompt h r tr h' ->
  Forall (direct_call_of who) tr.
Proof.
  intros Hwho Hrun.
  destruct Hrun as [e ? | o1 e ? ? | o1 sid ts' e Hs Hb | o1 sid ts' resp Hs Hb
                   | o1 sid ts' e Hs Hb | o1 sid ts' c Hs Hb];
    repeat constructor; simpl; intros Hin;
    destruct (Hwho _ Hin) as (o & Ho & Hd); unfold direct_agent in Hd;
    assert (o = o1) as -> by congruence; congruence.
Qed.

(** Whatever is invoked, and however often: objects of a kind that [run]
    keeps stay of that kind. *)
Lemma invocations_keep (P : TravelAgent -> Prop) calls (s : St W) :
  (forall o, P o -> use_agent o && agent_truthy (agent o) = true ->
             P (set_agent (Some (rebuilt o)) o)) ->
  forall (a : ref) o, heap s !! a = Some o -> P o ->
  exists o', heap (invocations X calls s).2 !! a = Some o' /\ P o'.
Proof.
  intros HP. revert s. induction calls as [|[self prompt] calls IH];
    intros s a o Ha Po; [by eauto |].
  cbn [invocations].
  destruct (run X self prompt s) as [[r t1] s1] eqn:Hrun.
  destruct (invocations X calls s1) as [t2 s2] eqn:Hrest.
  apply run_sound in Hrun.
  destruct (run_of_keeps P _ _ _ _ _ _ HP Hrun a o Ha Po) as (o1 & Ha1 & Po1).
  specialize (IH s1 a o1 Ha1 Po1). by rewrite Hrest in IH.
Qed.

Lemma invocations_tool_calls who ts calls (s : St W) :
  (forall a : ref, In a who -> exists o, heap s !! a = Some o /\ search_agent ts o) ->
  Forall (tool_call_of who ts) (invocations X calls s).1.
Proof.
  revert s. induction calls as [|[self prompt] calls IH]; intros s Hwho;
    [by constructor |].
  cbn [invocations].
  destruct (run X self prompt s) as [[r t1] s1] eqn:Hrun.
  destruct (invocations X calls s1) as [t2 s2] eqn:Hrest.
  apply run_sound in Hrun. cbn [fst]. apply Forall_app. split.
  - by eapply run_of_tool_calls.
  - specialize (IH s1). rewrite Hrest in IH. apply IH.
    intros a Ha. destruct (Hwho a Ha) as (o & Ho & Po).
    eapply run_of_keeps; eauto using search_agent_stable.
Qed.

Lemma invocations_direct_calls who calls (s : St W) :
  (forall a : ref, In a who -> exists o, heap s !! a = Some o /\ direct_agent o) ->
  Forall (direct_call_of who) (invocations X calls s).1.
Proof.
  revert s. induction calls as [|[self prompt] calls IH]; intros s Hwho;
    [by constructor |].
  cbn [invocations].
  destruct (run X self prompt s) as [[r t1] s1] eqn:Hrun.
  destruct (invocations X calls s1) as [t2 s2] eqn:Hrest.
  apply run_sound in Hrun. cbn [fst]. apply Forall_app. split.
  - by eapply run_of_direct_calls.
  - specialize (IH s1). rewrite Hrest in IH. apply IH.
    intros a Ha. destruct (Hwho a Ha) as (o & Ho & Po).
    eapply run_of_keeps; eauto using direct_agent_stable.
Qed.

End AgentFacts.

Section ToolFacts.
Context {W : Type} (X : Ext W).

Lemma getenv_inv (k : string) (s : St W) r tr s' :
  getenv k s = (r, tr, s') -> tr = [] /\ s' = s.
Proof. by intros [= <- <- <-]. Qed.

Lemma chat_model_inv m k (s : St W) l tr s' :
  chat_model X m k s = (Ok l, tr, s') -> l = mkLLM m k /\ heap s' = heap s.
Proof. unfold chat_model. intros H. script_inv. done. Qed.

Lemma initialize_agents_inv (s : St W) agents tr s' :
  initialize_agents X s = (Ok (Some agents), tr, s') ->
  exists l ts s2 s3 tr3,
    result_of (initialize_composio_tools X s2) = Ok ts
    /\ build_agents X l ts s3 = (Ok agents, tr3, s').
Proof.
  unfold initialize_agents. intros H.
  apply try_except_inv in H as [(a & H & [= <-]) | (e & ? & ? & ? & _ & H & _)].
  - apply bind_inv in H as [(k & ? & s1 & ? & _ & H & ->) | (? & _ & ?)];
      [| done]. cbv beta in H.
    apply bind_inv in H as [(l & ? & s2 & ? & _ & H & ->) | (? & _ & ?)];
      [| done]. cbv beta in H.
    apply bind_inv in H as [(ts & ? & s3 & ? & Ht & H & ->) | (? & _ & ?)];
      [| done]. cbv beta in H.
    apply bind_inv in H as [([] & ? & s4 & ? & Hw & H & ->) | (? & _ & ?)];
      [| done]. cbv beta in H.
    apply bind_inv in H as [(ags & tr3 & s5 & ? & Hb & H & ->) | (? & _ & ?)];
      [| done]. cbv beta in H.
    apply ret_inv in H as ([= ->] & -> & ->).
    exists l, ts, s2, s4, tr3. split; [by rewrite Ht | done].
  - cbv beta in H. unfold st_error in H. script_inv.
Qed.

(** C4, as the code has it: the researcher, the planner, the budget expert
    and the local expert are all constructed with the tools that
    [initialize_composio_tools] returned; when that list is not empty, every
    call to the model that any of the four makes, in whatever invocations
    follow, goes through an executor built from these tools. *)
Theorem search_agents_use_tools (s : St W) agents :
  result_of (initialize_agents X s) = Ok (Some agents) ->
  let s1 := state_of (initialize_agents X s) in
  exists ts s2,
    result_of (initialize_composio_tools X s2) = Ok ts
    /\ Forall (fun a : ref =>
                 exists o, heap s1 !! a = Some o
                           /\ tools o = ts /\ use_agent o = true)
              (report_agents agents)
    /\ (ts <> [] ->
        forall calls,
          Forall (tool_call_of (report_agents agents) ts)
                 (invocations X calls s1).1).
Proof.
  intros Hr s1. subst s1.
  destruct (initialize_agents X s) as [[r tr] s'] eqn:H.
  unfold result_of, state_of in *. cbn [fst snd] in *. subst r.
  apply initialize_agents_inv in H as (l & ts & s2 & s3 & tr3 & Ht & Hb).
  exists ts, s2. split; [done |].
  apply build_agents_inv in Hb
    as (o1 & o2 & o3 & o4 & o5 & Hh & -> & Hs & _).
  assert (forall a : ref, In a (report_agents
            (mkAgents (length (heap s3)) (length (heap s3) + 1)
                      (length (heap s3) + 2) (length (heap s3) + 3)
                      (length (heap s3) + 4))) ->
          exists o, heap s' !! a = Some o
                    /\ use_agent o = true /\ tools o = ts
                    /\ agent o = if list_truthy ts
                                 then Some (mkExecutor ts l None None)
                                 else None) as Hobj.
  { intros a Ha. rewrite Hh. cbn [report_agents In researcher planner
      budget_expert local_expert] in Ha.
    rewrite !Forall_cons in Hs.
    destruct Hs as ((? & ? & _ & ?) & (? & ? & _ & ?) & (? & ? & _ & ?)
                    & (? & ? & _ & ?) & _).
    destruct Ha as [<- | [<- | [<- | [<- | []]]]];
      rewrite lookup_app_r by lia;
      [ replace (length (heap s3) - length (heap s3)) with 0 by lia
      | replace (length (heap s3) + 1 - length (heap s3)) with 1 by lia
      | replace (length (heap s3) + 2 - length (heap s3)) with 2 by lia
      | replace (length (heap s3) + 3 - length (heap s3)) with 3 by lia ];
      eexists; (split; [reflexivity | done]). }
  split.
  - apply Forall_forall. intros a Ha. apply list_elem_of_In in Ha.
    destruct (Hobj a Ha) as (o & ? & ? & ? & ?). eauto.
  - intros Hts calls. apply invocations_tool_calls.
    intros a Ha. destruct (Hobj a Ha) as (o & ? & ? & ? & Hag).
    exists o. split; [done |]. repeat split; try done.
    rewrite Hag. destruct ts; done.
Qed.

End ToolFacts.

Section NoToolFacts.
Context {W : Type} (X : Ext W).

Lemma TravelAgent_init_no_tools name role goal backstory l ua (s : St W) :
  TravelAgent_init X name role goal backstory l [] ua s
  = (Ok (length (heap s)), [],
     mkSt (world s) (environ s)
          (heap s ++ [mkTravelAgent name role goal backstory l [] ua None])).
Proof.
  unfold TravelAgent_init. cbn [list_truthy]. rewrite andb_false_r.
  reflexivity.
Qed.

Lemma build_agents_no_tools l (s : St W) :
  exists agents,
    result_of (build_agents X l [] s) = Ok agents
    /\ trace_of (build_agents X l [] s) = []
    /\ forall a : ref, In a (call_order agents) ->
         exists o, heap (state_of (build_agents X l [] s)) !! a = Some o
                   /\ direct_agent o.
Proof.
  destruct (build_agents X l [] s) as [[r tr] s'] eqn:H.
  assert (exists agents, r = Ok agents) as (agents & ->).
  { revert H. unfold build_agents, research_agent_init, itinerary_agent_init,
      budget_agent_init, local_expert_agent_init, summarizer_agent_init, bind.
    rewrite !TravelAgent_init_no_tools. cbn. intros [= <- _ _]. eauto. }
  exists agents. unfold result_of, trace_of, state_of. cbn [fst snd].
  apply build_agents_inv in H
    as (o1 & o2 & o3 & o4 & o5 & Hh & -> & Hs & Hu & _ & Ha5 & _ & Htr).
  split; [done |]. split; [by apply Htr |].
  rewrite !Forall_cons in Hs.
  destruct Hs as ((? & _ & _ & E1) & (? & _ & _ & E2) & (? & _ & _ & E3)
                  & (? & _ & _ & E4) & _).
  cbn [list_truthy] in *.
  intros a Ha. rewrite Hh.
  cbn [call_order In researcher planner budget_expert local_expert
       summarizer] in Ha.
  destruct Ha as [<- | [<- | [<- | [<- | [<- | []]]]]];
    rewrite lookup_app_r by lia;
    [ replace (length (heap s) - length (heap s)) with 0 by lia
    | replace (length (heap s) + 1 - length (heap s)) with 1 by lia
    | replace (length (heap s) + 2 - length (heap s)) with 2 by lia
    | replace (length (heap s) + 3 - length (heap s)) with 3 by lia
    | replace (length (heap s) + 4 - length (heap s)) with 4 by lia ];
    eexists; (split; [reflexivity |]); unfold direct_agent;
    rewrite ?E1, ?E2, ?E3, ?E4, ?Ha5, ?Hu; by rewrite ?andb_false_r.
Qed.

(** A [run] of an object without executor, computed: one [llm.invoke] with
    the full prompt; what it returns is the content of the message as it
    is, or [str] of a response without content. *)
Lemma run_direct (self : ref) prompt (s : St W) o :
  heap s !! self = Some o ->
  direct_agent o ->
  let u := ext_uuid4 X (world s) in
  let n := ext_now X u.2 in
  let fp := full_prompt (str_take 8 u.1) n.1 (role o) (goal o) (backstory o)
                        prompt in
  let a := ext_llm_invoke X (llm o) fp n.2 in
  run X self prompt s
  = (match a.1 with
     | Ok chat_response => Ok (response_value chat_response)
     | Raise e => Raise e
     end,
     [EvModelCall self (ViaLLM (llm o)) fp;
      match a.1 with
      | Ok chat_response => EvModelReturn self (ChatReply chat_response)
      | Raise e => EvModelRaise self e
      end],
     mkSt a.2 (environ s) (heap s)).
Proof.
  intros Hs Hd. unfold direct_agent in Hd. cbv zeta.
  unfold run, bind, ask, deref, model_call.
  destruct (ext_uuid4 X (world s)) as [uuid w1]. cbn [fst snd world heap environ].
  destruct (ext_now X w1) as [ts w2]. cbn [fst snd world heap environ].
  rewrite Hs, Hd. cbn [fst snd world heap environ].
  by destruct (ext_llm_invoke X _ _ w2) as [[c | e] w3].
Qed.

(** A [TravelAgent] constructed with an empty tool list gets no executor,
    whatever its [use_agent] flag, and never gets one: in all the
    invocations that follow, its calls are direct calls of the chat model
    and its [agent] stays [None]; and one [run] is one [llm.invoke], of
    which it returns the content, unconverted. *)
Lemma empty_tools_no_executor name role goal backstory l ua (s : St W) :
  let x := TravelAgent_init X name role goal backstory l [] ua s in
  let self := length (heap s) in
  let this := mkTravelAgent name role goal backstory l [] ua None in
  (result_of x = Ok self /\ trace_of x = []
   /\ heap (state_of x) !! self = Some this)
  /\ (forall calls,
        Forall (direct_call_of [self]) (invocations X calls (state_of x)).1
        /\ heap (invocations X calls (state_of x)).2 !! self = Some this)
  /\ (forall prompt,
        let y := run X self prompt (state_of x) in
        let u := ext_uuid4 X (world s) in
        let n := ext_now X u.2 in
        let fp := full_prompt (str_take 8 u.1) n.1 role goal backstory
                              prompt in
        trace_of y
        = [EvModelCall self (ViaLLM l) fp;
           match (ext_llm_invoke X l fp n.2).1 with
           | Ok chat_response => EvModelReturn self (ChatReply chat_response)
           | Raise e => EvModelRaise self e
           end]
        /\ result_of y
           = match (ext_llm_invoke X l fp n.2).1 with
             | Ok chat_response => Ok (response_value chat_response)
             | Raise e => Raise e
             end).
Proof.
  intros x self this. subst x.
  rewrite TravelAgent_init_no_tools.
  unfold result_of, trace_of, state_of. cbn [fst snd heap].
  assert ((heap s ++ [this]) !! (self : ref) = Some this) as Hself.
  { subst self. rewrite lookup_app_r by lia.
    by replace (length (heap s) - length (heap s)) with 0 by lia. }
  assert (direct_agent this) as Hd.
  { unfold direct_agent. subst this. cbn. apply andb_false_r. }
  split; [done |]. split.
  - intros calls. split.
    + apply invocations_direct_calls. intros a [<- | []]. eauto.
    + edestruct (invocations_keep X (fun o => o = this) calls
                   (mkSt (world s) (environ s) (heap s ++ [this])))
        as (o' & Ho' & ->); [| exact Hself | reflexivity | exact Ho'].
      intros o -> Hb. exfalso. unfold direct_agent in Hd. congruence.
  - intros prompt. cbv zeta.
    fold this.
    rewrite (run_direct self prompt
               (mkSt (world s) (environ s) (heap s ++ [this])) this Hself Hd).
    done.
Qed.

(** When [initialize_composio_tools] returned no tools, [initialize_agents]
    warns, and in whatever invocations follow, every call of the researcher,
    the planner, the budget expert and the local expert is a direct call of
    the chat model. *)
Lemma no_tools_all_direct (s : St W) agents :
  result_of (initialize_agents X s) = Ok (Some agents) ->
  let s2 := state_of (chat_model X "gemini-2.0-flash"
                                 (environ s !! "GOOGLE_API_KEY") s) in
  result_of (initialize_composio_tools X s2) = Ok [] ->
  In (EvWarning "⚠️ No search tools available. Some features may be limited.")
     (trace_of (initialize_agents X s))
  /\ forall calls,
       Forall (direct_call_of (report_agents agents))
              (invocations X calls (state_of (initialize_agents X s))).1.
Proof.
  intros Hr s2 Ht0. subst s2.
  destruct (initialize_agents X s) as [[r tr] s'] eqn:H.
  unfold result_of, trace_of, state_of in *. cbn [fst snd] in *. subst r.
  unfold initialize_agents in H.
  apply try_except_inv in H as [(a & H & [= <-]) | (e & ? & ? & ? & _ & H & _)];
    [| cbv beta in H; unfold st_error in H; script_inv].
  apply bind_inv in H as [(k & ? & s1 & ? & Hk & H & ->) | (? & _ & ?)];
    [| done]. cbv beta in H.
  assert (k = environ s !! "GOOGLE_API_KEY" /\ s1 = s) as [-> ->]
    by (by injection Hk as <- _ <-).
  apply bind_inv in H as [(l & ? & s2 & ? & Hl & H & ->) | (? & _ & ?)];
    [| done]. cbv beta in H.
  rewrite Hl in Ht0. cbn [fst snd] in Ht0.
  apply bind_inv in H as [(ts & ? & s3 & ? & Ht & H & ->) | (? & _ & ?)];
    [| done]. cbv beta in H.
  rewrite Ht in Ht0. cbn [fst snd] in Ht0. injection Ht0 as ->.
  apply bind_inv in H as [([] & trw & s4 & ? & Hw & H & ->) | (? & _ & ?)];
    [| done]. cbv beta in H.
  apply bind_inv in H as [(ags & tr3 & s5 & ? & Hb & H & ->) | (? & _ & ?)];
    [| done]. cbv beta in H.
  apply ret_inv in H as ([= ->] & -> & ->).
  cbn [list_truthy negb] in Hw. unfold st_warning in Hw.
  apply emit_inv in Hw as (_ & -> & ->).
  split; [rewrite !in_app_iff; cbn [In]; tauto |].
  intros calls.
  destruct (build_agents_no_tools l s3) as (agents' & Hr & _ & Ho).
  rewrite Hb in Hr, Ho. unfold result_of, state_of in Hr, Ho.
  cbn [fst snd] in Hr, Ho. injection Hr as <-.
  apply invocations_direct_calls.
  intros a Ha. apply Ho.
  cbn [report_agents call_order In] in *. tauto.
Qed.

End NoToolFacts.

(** C10, where the code departs from it: an agent built with an empty tool
    list has no executor, and its [run] is one direct call of the chat model;
    but what it returns is the content of the reply as it is, and when that
    content is a list of blocks, [run] returns the list, not a string.  The
    plan made of it is shown, [st.download_button] refuses it, and the
    script ends with the error box and without a download. *)
Theorem list_content_is_not_converted :
  let X := Demo.list_content [] in
  let s := Demo.built [] in
  let y := run X (researcher Demo.agents0) (research_query Demo.paris) s in
  (exists o,
     heap s !! researcher Demo.agents0 = Some o
     /\ tools o = [] /\ use_agent o = true /\ agent o = None)
  /\ (exists fp,
        trace_of y
        = [EvModelCall (researcher Demo.agents0) (ViaLLM Demo.gemini) fp;
           EvModelReturn (researcher Demo.agents0)
                         (ChatReply (Message (Blocks Demo.blocks)))])
  /\ result_of y = Ok (Blocks Demo.blocks)
  /\ (forall text, result_of y <> Ok (Str text))
  /\ (let x := plan_trip X Demo.agents0 s in
      In (EvMarkdown (success_box Demo.blocks) true) (trace_of x)
      /\ In (EvMarkdown (error_box invalid_data) true) (trace_of x)
      /\ downloads (trace_of x) = []).
Proof.
  cbv zeta.
  split; [eexists; vm_compute; repeat split; reflexivity |].
  split; [eexists; vm_compute; reflexivity |].
  split; [vm_compute; reflexivity |].
  split; [intros text; vm_compute; discriminate |].
  split; [| split]; vm_compute; tauto.
Qed.


(** ** The file name *)

Lemma replace_char_length (old new : ascii) (s : string) :
  String.length (replace_char old new s) = String.length s.
Proof. induction s as [|c s IH]; simpl; [done | by rewrite IH]. Qed.

(** [replace_char] changes every [old] into [new] and nothing else. *)
Lemma replace_char_get (old new : ascii) (s : string) (i : nat) :
  String.get i (replace_char old new s)
  = (fun c => if Ascii.eqb c old then new else c) <$> String.get i s.
Proof.
  revert i. induction s as [|c s IH]; intros [|i]; simpl; done.
Qed.

(** ** Before the form *)

Lemma quiet_no_model_calls (tr : list event) :
  forallb is_quiet tr = true -> model_calls tr = [].
Proof.
  induction tr as [|e tr IH]; [done |].
  destruct e; simpl; try done; intros; by apply IH.
Qed.

Lemma quiet_no_widgets (tr : list event) :
  forallb is_quiet tr = true -> input_fields tr = 0 /\ submit_actions tr = 0.
Proof.
  unfold input_fields, submit_actions.
  induction tr as [|e tr IH]; [done |].
  rewrite !count_events_cons.
  destruct e; simpl; try done; intros; by apply IH.
Qed.

Ltac quiet_trace :=
  repeat first
    [ rewrite forallb_app
    | match goal with H : forallb is_quiet _ = true |- _ => rewrite H end
    | progress cbn [forallb is_quiet is_model_event is_input_field is_submit
                    orb negb andb] ];
  try reflexivity.

Section StartFacts.
Context {W : Type} (X : Ext W).

Lemma setenv_inv (k v : string) (s : St W) r tr s' :
  setenv k v s = (r, tr, s') -> r = Ok tt /\ tr = [].
Proof. by intros [= <- <- <-]. Qed.

Lemma setup_environment_quiet (s : St W) :
  forallb is_quiet (trace_of (setup_environment X s)) = true
  /\ exists ok, result_of (setup_environment X s) = Ok ok.
Proof.
  destruct (setup_environment X s) as [[r tr] s'] eqn:H.
  unfold trace_of, result_of. cbn [fst snd].
  unfold setup_environment, copy_secret_if_present, copy_secret in H.
  repeat (first [ script_step
                | match goal with
                  | H : setenv _ _ _ = _ |- _ =>
                      apply setenv_inv in H as (? & ?)
                  end ]; simplify_eq);
    (split; [quiet_trace | eauto]).
Qed.


Lemma TravelAgent_init_quiet name role goal backstory l ts ua (s : St W) r tr s' :
  TravelAgent_init X name role goal backstory l ts ua s = (r, tr, s') ->
  forallb is_quiet tr = true.
Proof.
  intros H. apply TravelAgent_init_inv in H
    as [(e & -> & _ & _ & ->) | (-> & _ & ->)];
    [done | by destruct (ua && list_truthy ts)].
Qed.

(** Takes apart the part of the script that runs before the form. *)
Ltac start_inv :=
  repeat (first
    [ script_step
    | match goal with
      | H : setenv _ _ _ = _ |- _ => apply setenv_inv in H as (? & ?)
      | H : getenv _ _ = _ |- _ => apply getenv_inv in H as (? & ?)
      | H : TravelAgent_init _ _ _ _ _ _ _ _ _ = _ |- _ =>
          apply TravelAgent_init_quiet in H
      end ]; simplify_eq).

Lemma initialize_agents_quiet (s : St W) :
  forallb is_quiet (trace_of (initialize_agents X s)) = true
  /\ exists agents, result_of (initialize_agents X s) = Ok agents.
Proof.
  destruct (initialize_agents X s) as [[r tr] s'] eqn:H.
  unfold trace_of, result_of. cbn [fst snd].
  unfold initialize_agents, chat_model, initialize_composio_tools,
    connect_tavily, build_agents, research_agent_init, itinerary_agent_init,
    budget_agent_init, local_expert_agent_init, summarizer_agent_init in H.
  start_inv; (split; [quiet_trace | eauto]).
Qed.

(** [main] either stops before the form, having called no agent and shown
    no widget, or goes on as [plan_trip] does. *)
Lemma main_inv (s : St W) :
  forallb is_quiet (trace_of (main X s)) = true
  \/ exists pre agents s1,
       forallb is_quiet pre = true
       /\ result_of (main X s) = result_of (plan_trip X agents s1)
       /\ trace_of (main X s) = pre ++ trace_of (plan_trip X agents s1).
Proof.
  destruct (main X s) as [[r tr] s'] eqn:H.
  unfold trace_of, result_of. cbn [fst snd].
  unfold main, sidebar in H. script_inv.
  all: repeat match goal with
         | H : setup_environment X ?s = _ |- _ =>
             let Q := fresh "Q" in
             destruct (setup_environment_quiet s) as (Q & ? & ?);
             rewrite H in *; unfold trace_of, result_of in *;
             cbn [fst snd] in *; clear H; simplify_eq
         | H : initialize_agents X ?s = _ |- _ =>
             let Q := fresh "Q" in
             destruct (initialize_agents_quiet s) as (Q & ? & ?);
             rewrite H in *; unfold trace_of, result_of in *;
             cbn [fst snd] in *; clear H; simplify_eq
         end.
  all: try (left; quiet_trace; fail).
  match goal with
  | H : (match ?a with Some _ => _ | None => _ end) _ = _ |- _ =>
      destruct a as [agents|]
  end.
  - right.
    match goal with
    | H : plan_trip X agents ?s1 = _ |- _ =>
        eexists _, agents, s1; rewrite H; cbn [fst snd]
    end.
    split; [| split; [reflexivity |]].
    2:{ rewrite !app_assoc. reflexivity. }
    quiet_trace.
  - left. unfold st_error in *. script_inv. quiet_trace.
Qed.

End StartFacts.

(** ** Setup, agents and the page *)

Lemma errors_app (t1 t2 : list event) :
  errors (t1 ++ t2) = errors t1 ++ errors t2.
Proof.
  induction t1 as [|e t1 IH]; [done |].
  destruct e; simpl; by rewrite ?IH.
Qed.

Section SetupFacts.
Context {W : Type} (X : Ext W).

Lemma setenv_state (k v : string) (s : St W) r tr s' :
  setenv k v s = (r, tr, s') ->
  r = Ok tt /\ tr = []
  /\ s' = mkSt (world s) (<[k := v]> (environ s)) (heap s).
Proof. by intros [= <- <- <-]. Qed.

(** Takes [setup_environment] apart, keeping the states. *)
Ltac setup_inv :=
  repeat (first
    [ script_step
    | match goal with
      | H : setenv _ _ _ = _ |- _ => apply setenv_state in H as (? & ? & ?)
      end ]; simplify_eq).

(** Without a Google key in the secrets, [setup_environment] shows the
    error and the setup instructions and returns [False]; it reads no
    secret, and leaves [os.environ] and the agents as they were. *)
Theorem setup_without_google_key (s : St W) w :
  ext_secrets_contains X "GOOGLE_API_KEY" (world s) = (Ok false, w) ->
  setup_environment X s
  = (Ok false,
     [EvError "❌ Google API Key not found in secrets. Please add it to your Streamlit secrets.";
      EvMarkdown setup_instructions true],
     mkSt w (environ s) (heap s)).
Proof.
  intros H. unfold setup_environment, try_except, bind, call. by rewrite H.
Qed.

(** [setup_environment] writes to [os.environ] under the three keys of the
    secrets only and never touches the agents; when it returns [True], the
    Google key is set. *)
Theorem setup_environment_environ (s : St W) :
  let x := setup_environment X s in
  (forall k, ~ In k secret_keys ->
             environ (state_of x) !! k = environ s !! k)
  /\ heap (state_of x) = heap s
  /\ (result_of x = Ok true ->
      is_Some (environ (state_of x) !! "GOOGLE_API_KEY")).
Proof.
  intros x. subst x.
  destruct (setup_environment X s) as [[r tr] s'] eqn:H.
  unfold result_of, state_of. cbn [fst snd].
  unfold setup_environment, copy_secret_if_present, copy_secret in H.
  setup_inv; cbn [environ heap world].
  all: split; [intros k Hk; cbn [secret_keys In] in Hk;
               rewrite ?lookup_insert_ne by (intros <-; tauto); done |].
  all: split; [done |].
  all: intros Hr; try discriminate Hr.
  all: rewrite ?lookup_insert_ne by done; rewrite lookup_insert_eq; eauto.
Qed.

(** [setup_environment] never raises: it returns [True] and has shown
    nothing, or it returns [False] and has shown exactly one [st.error]. *)
Theorem setup_failure_is_shown (s : St W) :
  let x := setup_environment X s in
  (result_of x = Ok true /\ trace_of x = [])
  \/ (result_of x = Ok false /\ exists msg, errors (trace_of x) = [msg]).
Proof.
  intros x. subst x.
  destruct (setup_environment X s) as [[r tr] s'] eqn:H.
  unfold result_of, trace_of. cbn [fst snd].
  unfold setup_environment, copy_secret_if_present, copy_secret in H.
  setup_inv; cbn [app errors]; eauto.
Qed.

End SetupFacts.

Section ToolsetFacts.
Context {W : Type} (X : Ext W).

Lemma list_truthy_nonempty {A} (l : list A) : list_truthy l = true <-> l <> [].
Proof. by destruct l. Qed.

Lemma initialize_composio_tools_state (s : St W) :
  exists ts,
    result_of (initialize_composio_tools X s) = Ok ts
    /\ environ (state_of (initialize_composio_tools X s)) = environ s
    /\ heap (state_of (initialize_composio_tools X s)) = heap s.
Proof.
  destruct (initialize_composio_tools X s) as [[r tr] s'] eqn:H.
  unfold result_of, state_of. cbn [fst snd].
  unfold initialize_composio_tools, connect_tavily in H.
  script_inv; cbn [environ heap]; by eexists.
Qed.

(** [initialize_composio_tools] never raises and touches neither
    [os.environ] nor the agents; it returns the empty list exactly when it
    has shown one [st.error], and shows none when it returns tools. *)
Theorem composio_tools_or_error (s : St W) :
  let x := initialize_composio_tools X s in
  exists ts,
    result_of x = Ok ts
    /\ environ (state_of x) = environ s /\ heap (state_of x) = heap s
    /\ (ts = [] <-> exists msg, errors (trace_of x) = [msg])
    /\ (ts <> [] -> errors (trace_of x) = []).
Proof.
  intros x. subst x.
  destruct (initialize_composio_tools X s) as [[r tr] s'] eqn:H.
  unfold result_of, trace_of, state_of. cbn [fst snd].
  unfold initialize_composio_tools, connect_tavily in H.
  script_inv; cbn [app errors environ heap]; eexists; (split; [reflexivity |]);
    do 2 (split; [reflexivity |]).
  all: repeat match goal with
         | E : negb (list_truthy ?l) = _ |- _ =>
             destruct l; cbn in E; try discriminate E; clear E
         | E : list_truthy ?l = _ |- _ =>
             destruct l; cbn in E; try discriminate E; clear E
         end.
  all: split; [split; [intros ?; try discriminate; eauto
                      | intros (? & ?); try discriminate; done]
              | intros ?; try done].
Qed.

End ToolsetFacts.

Section ObjectFacts.
Context {W : Type} (X : Ext W).

(** A [run] creates no object and changes no object but its own; of its
    own it can only replace the executor by a rebuilt one: an object with an
    executor keeps having one, and one without never gets one. *)
Theorem run_changes_only_own_executor (self : ref) prompt (s : St W) :
  let x := run X self prompt s in
  length (heap (state_of x)) = length (heap s)
  /\ forall (a : ref) o,
       heap s !! a = Some o ->
       exists o',
         heap (state_of x) !! a = Some o'
         /\ o' = set_agent (agent o') o
         /\ agent_truthy (agent o') = agent_truthy (agent o)
         /\ (a <> self -> o' = o).
Proof.
  intros x. subst x.
  destruct (run X self prompt s) as [[r tr] s'] eqn:H.
  unfold state_of. cbn [fst snd]. apply run_sound in H.
  assert (forall o : TravelAgent, o = set_agent (agent o) o) as Hid
    by (by intros []).
  destruct H as [e ? | o1 e ? ? | o1 sid ts e Hs Hb | o1 sid ts resp Hs Hb
                | o1 sid ts e ? ? | o1 sid ts c ? ?];
    rewrite ?length_insert; (split; [done |]); intros a o Ha; eauto 6.
  all: destruct (decide (a = self)) as [-> | Hne];
    [ rewrite list_lookup_insert_eq by (by eapply lookup_lt_Some);
      assert (o = o1) as -> by congruence;
      apply andb_true_iff in Hb as [_ Hb];
      eexists; split; [reflexivity |]; cbn; by rewrite Hb
    | rewrite list_lookup_insert_ne by done; eauto 6 ].
Qed.

(** A [run] calls the model once, or, raising, not at all; an agent with
    an executor that made no call has failed to rebuild the executor, and
    the objects are as they were. *)
Theorem run_calls_at_most_once (self : ref) prompt (s : St W) :
  let x := run X self prompt s in
  (model_calls (trace_of x) = [self]
   \/ (model_calls (trace_of x) = [] /\ exists e, result_of x = Raise e))
  /\ (forall o, heap s !! self = Some o ->
                use_agent o && agent_truthy (agent o) = true ->
                model_calls (trace_of x) = [] ->
                trace_of x = [EvInitializeAgent (tools o) (llm o)]
                /\ heap (state_of x) = heap s).
Proof.
  intros x. subst x.
  destruct (run X self prompt s) as [[r tr] s'] eqn:H.
  unfold result_of, trace_of, state_of. cbn [fst snd]. apply run_sound in H.
  destruct H as [e ? | o1 e ? ? | o1 sid ts e Hs Hb | o1 sid ts resp Hs Hb
                | o1 sid ts e ? ? | o1 sid ts c ? ?]; cbn [model_calls];
    (split; [eauto |]); intros o Ho Hb' Hc; try discriminate Hc;
    try congruence.
  assert (o = o1) as -> by congruence. done.
Qed.

(** An object that calls the chat model directly goes on doing so, and no
    [run], on it or on another object, changes it. *)
Lemma direct_agent_invocations (self : ref) o calls (s : St W) :
  heap s !! self = Some o ->
  direct_agent o ->
  Forall (direct_call_of [self]) (invocations X calls s).1
  /\ heap (invocations X calls s).2 !! self = Some o.
Proof.
  intros Ho Hd. split.
  - apply invocations_direct_calls. intros a [<- | []]. eauto.
  - edestruct (invocations_keep X (fun o' => o' = o) calls s)
      as (o' & Ho' & ->); [| exact Ho | reflexivity | exact Ho'].
    intros ? -> Hb. unfold direct_agent in Hd. congruence.
Qed.

(** An agent constructed with [use_agent=False], as the summarizer is, has
    no executor whatever its tools, and its calls are direct calls of the
    chat model in all the invocations that follow. *)
Theorem no_use_agent_no_executor name role goal backstory l ts (s : St W) :
  let x := TravelAgent_init X name role goal backstory l ts false s in
  let this := mkTravelAgent name role goal backstory l ts false None in
  result_of x = Ok (length (heap s)) /\ trace_of x = []
  /\ heap (state_of x) = heap s ++ [this]
  /\ forall calls,
       Forall (direct_call_of [length (heap s)])
              (invocations X calls (state_of x)).1.
Proof.
  intros x this. subst x.
  destruct (TravelAgent_init X name role goal backstory l ts false s)
    as [[r tr] s'] eqn:H.
  unfold result_of, trace_of, state_of. cbn [fst snd].
  apply TravelAgent_init_inv in H as [(e & _ & _ & ? & _) | (-> & Hh & ->)];
    [done |]. cbn [andb] in *.
  do 3 (split; [done |]). intros calls.
  apply (direct_agent_invocations (length (heap s)) this); [| done].
  rewrite Hh, lookup_app_r by lia.
  by replace (length (heap s) - length (heap s)) with 0 by lia.
Qed.

End ObjectFacts.

Section InitFacts.
Context {W : Type} (X : Ext W).

Lemma build_agents_objects l ts (s : St W) agents tr s' :
  build_agents X l ts s = (Ok agents, tr, s') ->
  exists objs,
    heap s' = heap s ++ objs
    /\ call_order agents = seq (length (heap s)) 5
    /\ map name objs = agent_names
    /\ Forall (fun o => llm o = l) objs
    /\ (exists o5, objs !! 4 = Some o5 /\ direct_agent o5)
    /\ environ s' = environ s.
Proof.
  unfold build_agents, research_agent_init, itinerary_agent_init,
    budget_agent_init, local_expert_agent_init, summarizer_agent_init.
  intros H.
  assert (forall n r g b l' ts' ua (s1 : St W) r1 t1 s1',
            TravelAgent_init X n r g b l' ts' ua s1 = (r1, t1, s1') ->
            environ s1' = environ s1) as Henv.
  { intros n r g b l' ts' ua s1 r1 t1 s1' Hi.
    unfold TravelAgent_init, initialize_agent, alloc in Hi.
    script_inv; try done;
      match goal with
      | H : (_, _, _) = (_, _, _) |- _ => by injection H as _ _ <-
      | _ => idtac
      end. }
  repeat match goal with
         | H : bind (TravelAgent_init _ _ _ _ _ _ _ _) _ _ = (Ok _, _, _) |- _ =>
             apply bind_inv in H as [(? & ? & ? & ? & Hi & H & ->) | (? & _ & ?)];
             [| done];
             let E := fresh "E" in
             pose proof (Henv _ _ _ _ _ _ _ _ _ _ _ Hi) as E;
             apply TravelAgent_init_inv in Hi
               as [(? & ? & _) | ([= ->] & ? & ->)]; [done |];
             cbv beta zeta in H
         end.
  apply ret_inv in H as ([= ->] & -> & ->).
  repeat match goal with E : heap _ = _ |- _ => rewrite E; clear E end.
  rewrite <- !app_assoc, !length_app. cbn [app length andb].
  eexists. split; [reflexivity |].
  split. { unfold call_order. cbn. repeat (f_equal; try lia). }
  split; [reflexivity |].
  split; [repeat constructor |].
  split; [eexists; split; [reflexivity | done] |].
  congruence.
Qed.

Lemma chat_model_environ m k (s : St W) r tr s' :
  chat_model X m k s = (r, tr, s') -> environ s' = environ s.
Proof. unfold chat_model. intros H. script_inv; done. Qed.

(** When [initialize_agents] succeeds it has created five objects and no
    others, referenced in the order of the steps and named Researcher,
    Planner, Budget Expert, Local Expert and Summarizer; all five share the
    chat model gemini-2.0-flash with the Google key of [os.environ], which
    is left as it was. *)
Theorem initialize_agents_objects (s : St W) agents :
  result_of (initialize_agents X s) = Ok (Some agents) ->
  let s1 := state_of (initialize_agents X s) in
  exists objs,
    heap s1 = heap s ++ objs
    /\ call_order agents = seq (length (heap s)) 5
    /\ map name objs = agent_names
    /\ Forall (fun o => llm o = mkLLM "gemini-2.0-flash"
                                      (environ s !! "GOOGLE_API_KEY")) objs
    /\ environ s1 = environ s.
Proof.
  intros Hr s1. subst s1.
  destruct (initialize_agents X s) as [[r tr] s'] eqn:H.
  unfold result_of, state_of in *. cbn [fst snd] in *. subst r.
  unfold initialize_agents in H.
  apply try_except_inv in H as [(a & H & [= <-]) | (e & ? & ? & ? & _ & H & _)];
    [| unfold st_error in H; by script_inv].
  apply bind_inv in H as [(k & ? & s1 & ? & Hk & H & ->) | (? & _ & ?)];
    [| done]. cbv beta in H.
  assert (k = environ s !! "GOOGLE_API_KEY" /\ s1 = s) as [-> ->]
    by (by injection Hk as <- _ <-).
  apply bind_inv in H as [(l & ? & s2 & ? & Hl & H & ->) | (? & _ & ?)];
    [| done]. cbv beta in H.
  pose proof (chat_model_environ _ _ _ _ _ _ Hl) as He2.
  apply chat_model_inv in Hl as (-> & Hh2).
  apply bind_inv in H as [(ts & ? & s3 & ? & Ht & H & ->) | (? & _ & ?)];
    [| done]. cbv beta in H.
  destruct (initialize_composio_tools_state X s2) as (ts' & _ & He3 & Hh3).
  rewrite Ht in He3, Hh3. unfold state_of in He3, Hh3. cbn [snd] in He3, Hh3.
  apply bind_inv in H as [([] & ? & s4 & ? & Hw & H & ->) | (? & _ & ?)];
    [| done]. cbv beta in H.
  assert (s4 = s3) as ->.
  { destruct (negb (list_truthy ts));
      [apply emit_inv in Hw as (_ & _ & ->) | apply ret_inv in Hw as (_ & _ & ->)];
      done. }
  apply bind_inv in H as [(ags & tr3 & s5 & ? & Hb & H & ->) | (? & _ & ?)];
    [| done]. cbv beta in H.
  apply ret_inv in H as ([= ->] & -> & ->).
  apply build_agents_objects in Hb as (objs & Hh & Hc & Hn & Hl & _ & He).
  exists objs. rewrite Hh3, Hh2 in Hc. rewrite Hh, Hh3, Hh2, He, He3, He2. done.
Qed.

(** [initialize_agents] never raises: it returns the agents, or it returns
    [None] and the last thing it has shown is the error with the text of
    the exception. *)
Theorem initialize_agents_failure_is_shown (s : St W) :
  let x := initialize_agents X s in
  (exists agents, result_of x = Ok (Some agents))
  \/ (result_of x = Ok None
      /\ exists e, last (trace_of x)
                   = Some (EvError ("Error initializing agents: " +:+ e))).
Proof.
  intros x. subst x.
  destruct (initialize_agents X s) as [[r tr] s'] eqn:H.
  unfold result_of, trace_of. cbn [fst snd].
  unfold initialize_agents in H.
  apply try_except_inv in H as [(a & H & ->) | (e & t1 & ? & ? & _ & H & ->)].
  - left. apply bind_inv in H as [(? & ? & ? & ? & _ & H & _) | (? & _ & ?)];
      [| done]. cbv beta in H.
    repeat (apply bind_inv in H as [(? & ? & ? & ? & _ & H & _) | (? & _ & ?)];
            [| done]; cbv beta in H).
    apply ret_inv in H as ([= ->] & _). eauto.
  - right. cbv beta in H. unfold st_error in H. script_inv.
    split; [done |]. exists e. cbn [app]. by rewrite last_snoc.
Qed.

(** Whatever tools Composio gave, the summarizer's calls are direct calls
    of the chat model, in all the invocations that follow
    [initialize_agents]. *)
Theorem summarizer_never_uses_tools (s : St W) agents calls :
  result_of (initialize_agents X s) = Ok (Some agents) ->
  Forall (direct_call_of [summarizer agents])
         (invocations X calls (state_of (initialize_agents X s))).1.
Proof.
  intros Hr.
  destruct (initialize_agents X s) as [[r tr] s'] eqn:H.
  unfold result_of, state_of in *. cbn [fst snd] in *. subst r.
  apply initialize_agents_inv in H as (l & ts & s2 & s3 & tr3 & _ & Hb).
  apply build_agents_objects in Hb
    as (objs & Hh & Hc & _ & _ & (o5 & Ho5 & Hd) & _).
  injection Hc as _ _ _ _ Hs.
  apply invocations_direct_calls. intros a [<- | []].
  exists o5. split; [| done].
  rewrite Hh, Hs, lookup_app_r by lia.
  by replace (S (S (S (S (length (heap s3))))) - length (heap s3)) with 4
    by lia.
Qed.

End InitFacts.

Lemma markdowns_app (t1 t2 : list event) :
  markdowns (t1 ++ t2) = markdowns t1 ++ markdowns t2.
Proof.
  induction t1 as [|e t1 IH]; [done |].
  destruct e; simpl; by rewrite ?IH.
Qed.

Lemma returned_app (t1 t2 : list event) :
  returned (t1 ++ t2) = returned t1 ++ returned t2.
Proof.
  induction t1 as [|e t1 IH]; [done |].
  destruct e; simpl; by rewrite ?IH.
Qed.

Lemma initialize_no_markdowns (pre : list event) :
  forallb is_initialize pre = true -> markdowns pre = [].
Proof.
  induction pre as [|e pre IH]; [done |].
  destruct e; simpl; try done; intros; by apply IH.
Qed.

Lemma initialize_no_returned (pre : list event) :
  forallb is_initialize pre = true -> returned pre = [].
Proof.
  induction pre as [|e pre IH]; [done |].
  destruct e; simpl; try done; intros; by apply IH.
Qed.

Lemma initialize_no_errors (pre : list event) :
  forallb is_initialize pre = true -> errors pre = [].
Proof.
  induction pre as [|e pre IH]; [done |].
  destruct e; simpl; try done; intros; by apply IH.
Qed.

(** Reads the boxes and the returned texts off a trace of the pipeline. *)
Ltac read_display :=
  repeat first
    [ progress cbn [markdowns returned errors app]
    | rewrite markdowns_app
    | rewrite returned_app
    | rewrite errors_app
    | rewrite initialize_no_markdowns by assumption
    | rewrite initialize_no_returned by assumption
    | rewrite initialize_no_errors by assumption ].

Section DisplayFacts.
Context {W : Type} (X : Ext W).

(** What the pipeline shows with [st.markdown], in every run: the report
    of each of the first four steps that returned, in its box and in order;
    then, once the summarizer has returned, the header of the plan and the
    plan in the success box; and nothing else.  It shows no [st.error]: a
    failure is left to the [except] clause.  A run that completes has shown
    four reports and the plan. *)
Theorem reports_are_shown agents t (s : St W) :
  let x := generate_plan X agents t s in
  let texts := returned (trace_of x) in
  markdowns (trace_of x)
  = map shown_report (take 4 texts)
    ++ match drop 4 texts with
       | plan :: _ =>
           [(div "section-header" "🎯 Your Personalized Travel Plan", true);
            (success_box plan, true)]
       | [] => []
       end
  /\ errors (trace_of x) = []
  /\ length texts <= 5
  /\ (result_of x = Ok tt -> length texts = 5).
Proof.
  intros x texts. subst x texts.
  destruct (generate_plan X agents t s) as [[r tr] s'] eqn:H.
  unfold trace_of, result_of. cbn [fst snd].
  plan_cases H; read_display; cbn [take drop map app length];
    repeat split; try done; lia.
Qed.

End DisplayFacts.

Section PageFacts.
Context {W : Type} (X : Ext W).

Lemma generate_plan_calls_prefix agents t (s : St W) :
  model_calls (trace_of (generate_plan X agents t s))
    `prefix_of` call_order agents.
Proof.
  destruct (generate_plan X agents t s) as [[r tr] s'] eqn:H.
  unfold trace_of. cbn [fst snd].
  plan_cases H; read_trace; by eexists.
Qed.

Lemma trip_details_state (s : St W) :
  exists t, result_of (trip_details X s) = Ok t
            /\ model_calls (trace_of (trip_details X s)) = []
            /\ errors (trace_of (trip_details X s)) = []
            /\ heap (state_of (trip_details X s)) = heap s
            /\ environ (state_of (trip_details X s)) = environ s.
Proof.
  destruct (trip_details X s) as [[r tr] s'] eqn:H.
  unfold result_of, trace_of, state_of. cbn [fst snd].
  unfold trip_details in H. script_inv. by eexists.
Qed.

(** With the dates in order and the button not pressed, the script shows
    the form, the button and the footer, calls no agent and leaves the
    agents as they were. *)
Theorem no_click_no_plan agents (s : St W) t :
  result_of (trip_details X s) = Ok t ->
  date_geb (start_date t) (end_date t) = false ->
  (ext_button X "🚀 Generate Travel Plan"
              (world (state_of (trip_details X s)))).1 = false ->
  let x := plan_trip X agents s in
  result_of x = Ok tt
  /\ trace_of x
     = trace_of (trip_details X s)
       ++ [EvButton "🚀 Generate Travel Plan";
           EvMarkdown "---" false;
           EvMarkdown "🤖 Powered by AI agents with real-time search capabilities | Auto-configured for instant use" false]
  /\ model_calls (trace_of x) = []
  /\ heap (state_of x) = heap s.
Proof.
  intros Ht Hd Hb x. subst x.
  destruct (trip_details_state s) as (t' & Ht' & Hc & _ & Hh & _).
  unfold plan_trip, bind.
  destruct (trip_details X s) as [[r tr] s1].
  unfold result_of, trace_of, state_of in *. cbn [fst snd] in *.
  subst r. injection Ht' as <-. rewrite Hd.
  unfold st_button, footer, st_markdown, bind, emit, ask.
  destruct (ext_button X _ (world s1)) as [clicked w]. cbn [fst] in Hb.
  subst clicked. cbn [fst snd app heap].
  split; [done |]. split; [done |].
  split; [by rewrite model_calls_app, Hc | done].
Qed.

Lemma st_button_inv label (s : St W) r tr s' :
  st_button X label s = (r, tr, s') ->
  r = Ok (ext_button X label (world s)).1 /\ tr = [EvButton label].
Proof. unfold st_button. intros H. script_inv. done. Qed.

Lemma footer_run (s : St W) :
  exists tf, footer s = (Ok tt, tf, s) /\ model_calls tf = [].
Proof. by eexists. Qed.

Lemma report_failure_run e (s : St W) :
  exists tf, report_failure e s = (Ok tt, tf, s) /\ model_calls tf = [].
Proof. by eexists. Qed.

Lemma plan_trip_calls agents (s : St W) :
  let x := plan_trip X agents s in
  result_of x = Ok tt
  /\ model_calls (trace_of x) `prefix_of` call_order agents
  /\ (model_calls (trace_of x) <> [] ->
      exists t,
        result_of (trip_details X s) = Ok t
        /\ date_geb (start_date t) (end_date t) = false
        /\ (ext_button X "🚀 Generate Travel Plan"
                       (world (state_of (trip_details X s)))).1 = true
        /\ all_filled t = true).
Proof.
  intros x. subst x.
  destruct (trip_details_state s) as (t & Ht & Hc & _).
  destruct (plan_trip X agents s) as [[r tr] s'] eqn:H.
  unfold plan_trip in H.
  apply bind_inv in H as [(t' & tr0 & s1 & tr1 & Hd & H & ->) | (e & Hd & ->)];
    rewrite Hd in Ht, Hc |- *;
    unfold result_of, trace_of, state_of in *; cbn [fst snd] in *;
    [| done].
  injection Ht as ->. cbv beta zeta in H.
  rewrite model_calls_app, Hc. cbn [app].
  destruct (date_geb (start_date t) (end_date t)) eqn:Hdate.
  { apply emit_inv in H as (-> & -> & _). cbn. split; [done |].
    split; [by eexists | done]. }
  apply bind_inv in H as [(clicked & tb & s2 & tr2 & Hb & H & ->) | (e & Hb & ->)];
    apply st_button_inv in Hb as (Hb & ->); [| done].
  injection Hb as ->.
  cbv beta in H. cbn [model_calls app].
  destruct ((ext_button X "🚀 Generate Travel Plan" (world s1)).1) eqn:Hclick.
  2:{ destruct (footer_run s2) as (tf & Hf & Hcf). rewrite Hf in H.
      simplify_eq. split; [done |].
      rewrite Hcf. split; [by eexists | done]. }
  destruct (all_filled t) eqn:Hall; cbn [negb] in H.
  2:{ apply emit_inv in H as (-> & -> & _). cbn. split; [done |].
      split; [by eexists | done]. }
  apply bind_inv in H as [([] & ? & ? & ? & Hp & H & ->) | (? & Hp & ?)];
    [| by apply emit_inv in Hp as (? & _)].
  apply emit_inv in Hp as (_ & -> & ->). cbv beta in H.
  cbn [model_calls app].
  pose proof (generate_plan_calls_prefix agents t s2) as Hpre.
  apply bind_inv in H as [([] & tg & s3 & tf & Hg & H & ->) | (e & Hg & ->)].
  - destruct (footer_run s3) as (tf' & Hf & Hcf). rewrite Hf in H.
    simplify_eq.
    rewrite model_calls_app, Hcf, app_nil_r.
    apply try_except_inv in Hg
      as [(? & Hg & _) | (e & t1 & s4 & t2 & Hg & Hr & ->)];
      rewrite Hg in Hpre; unfold trace_of in Hpre; cbn [fst snd] in Hpre.
    + split; [done |]. split; [done |]. intros _. by exists t.
    + destruct (report_failure_run e s4) as (tr' & Hr' & Hcr).
      rewrite Hr' in Hr. simplify_eq.
      rewrite model_calls_app, Hcr, app_nil_r.
      split; [done |]. split; [done |]. intros _. by exists t.
  - exfalso. apply try_except_inv in Hg
      as [(? & _ & ?) | (e' & t1 & s4 & t2 & Hg & Hr & ->)]; [done |].
    destruct (report_failure_run e' s4) as (tr' & Hr' & _).
    rewrite Hr' in Hr. simplify_eq.
Qed.

(** No exception escapes [main]: what a service raises is caught and
    shown, in [setup_environment], in [initialize_agents] or by the [except]
    clause of the pipeline. *)
Theorem main_never_raises (s : St W) : result_of (main X s) = Ok tt.
Proof.
  destruct (main X s) as [[r tr] s'] eqn:H.
  unfold result_of. cbn [fst snd].
  unfold main, sidebar in H. script_inv; try done.
  all: repeat match goal with
         | H : setup_environment X ?s = _ |- _ =>
             destruct (setup_environment_quiet X s) as (_ & ? & Q);
             rewrite H in Q; unfold result_of in Q; cbn [fst snd] in Q;
             clear H; simplify_eq
         | H : initialize_agents X ?s = _ |- _ =>
             destruct (initialize_agents_quiet X s) as (_ & ? & Q);
             rewrite H in Q; unfold result_of in Q; cbn [fst snd] in Q;
             clear H; simplify_eq
         end.
  match goal with
  | H : (match ?a with Some _ => _ | None => _ end) _ = _ |- _ =>
      destruct a as [agents|]
  end.
  - match goal with
    | H : plan_trip X agents ?s1 = _ |- _ =>
        destruct (plan_trip_calls agents s1) as (Q & _);
        rewrite H in Q; exact Q
    end.
  - unfold st_error in *. by script_inv.
Qed.

(** [main] calls the model only for a submission that passed validation:
    everything before the form made no call, the dates are in order, the
    button was pressed and all six values are filled. *)
Theorem main_calls_agents_only_on_valid_submission (s : St W) :
  model_calls (trace_of (main X s)) <> [] ->
  exists pre agents s1 t,
    trace_of (main X s) = pre ++ trace_of (plan_trip X agents s1)
    /\ model_calls pre = []
    /\ result_of (trip_details X s1) = Ok t
    /\ date_geb (start_date t) (end_date t) = false
    /\ (ext_button X "🚀 Generate Travel Plan"
                   (world (state_of (trip_details X s1)))).1 = true
    /\ all_filled t = true.
Proof.
  intros Hcalls.
  destruct (main_inv X s) as [Hq | (pre & agents & s1 & Hq & _ & Htr)].
  - by apply quiet_no_model_calls in Hq.
  - apply quiet_no_model_calls in Hq.
    rewrite Htr, model_calls_app, Hq in Hcalls. cbn [app] in Hcalls.
    destruct (plan_trip_calls agents s1) as (_ & _ & Hv).
    destruct (Hv Hcalls) as (t & ? & ? & ? & ?).
    by exists pre, agents, s1, t.
Qed.

(** One run of the script makes at most five calls to the model. *)
Theorem main_calls_at_most_five (s : St W) :
  length (model_calls (trace_of (main X s))) <= 5.
Proof.
  destruct (main_inv X s) as [Hq | (pre & agents & s1 & Hq & _ & Htr)].
  - apply quiet_no_model_calls in Hq. rewrite Hq. cbn. lia.
  - apply quiet_no_model_calls in Hq.
    rewrite Htr, model_calls_app, Hq. cbn [app].
    destruct (plan_trip_calls agents s1) as (_ & Hp & _).
    apply prefix_length in Hp. by cbn in Hp.
Qed.

End PageFacts.

Lemma string_forall_append p (a b : string) :
  string_forall p (a +:+ b) = string_forall p a && string_forall p b.
Proof.
  induction a as [|c a IH]; [done |].
  change (p c && string_forall p (a +:+ b)
          = p c && string_forall p a && string_forall p b).
  by rewrite IH, andb_assoc.
Qed.

Lemma replace_char_no_space (s : string) :
  string_forall not_space (replace_char " " "_" s) = true.
Proof.
  induction s as [|c s IH]; [done |]. simpl. rewrite IH, andb_true_r.
  destruct (Ascii.eqb c " ") eqn:E; [done |]. unfold not_space. by rewrite E.
Qed.

Lemma digit_not_space (n : Z) : not_space (digit n) = true.
Proof.
  unfold digit.
  assert (0 <= n mod 10 < 10)%Z as H by (apply Z.mod_pos_bound; lia).
  assert (Z.to_nat (n mod 10) < 10) as Hk by lia.
  destruct (Z.to_nat (n mod 10)) as [|[|[|[|[|[|[|[|[|[|k]]]]]]]]]];
    try reflexivity. lia.
Qed.

Lemma date_str_no_space (d : date) : string_forall not_space (date_str d) = true.
Proof.
  unfold date_str, digits4, digits2.
  rewrite !string_forall_append. cbn [string_forall].
  by rewrite !digit_not_space.
Qed.

(** The name of the download contains no space, those of the destination
    being replaced and the date having none, and it is 27 characters longer
    than the destination. *)
Theorem file_name_has_no_space (t : Trip) :
  string_forall not_space (file_name t) = true
  /\ String.length (file_name t) = String.length (destination t) + 27.
Proof.
  unfold file_name. split.
  - rewrite !string_forall_append, replace_char_no_space, date_str_no_space.
    reflexivity.
  - rewrite !length_append, replace_char_length.
    unfold date_str, digits4, digits2. rewrite !length_append. simpl. lia.
Qed.

Section GateFacts.
Context {W : Type} (X : Ext W).

(** The form is shown only when [setup_environment] returned [True] and
    [initialize_agents] returned the agents. *)
Theorem form_needs_setup_and_agents (s : St W) :
  input_fields (trace_of (main X s)) <> 0 ->
  result_of (setup_environment X s) = Ok true
  /\ exists agents,
       result_of (initialize_agents X (state_of (setup_environment X s)))
       = Ok (Some agents).
Proof.
  destruct (main X s) as [[r tr] s'] eqn:H.
  unfold trace_of. cbn [fst snd]. intros Hin.
  unfold main, sidebar in H. script_inv.
  all: repeat match goal with
         | H : setup_environment X ?s = (_, ?t, _) |- _ =>
             lazymatch goal with
             | Q : input_fields t = 0 |- _ => fail
             | _ =>
                 let Q := fresh "Q" in
                 destruct (setup_environment_quiet X s) as (Q & _);
                 rewrite H in Q; unfold trace_of in Q; cbn [fst snd] in Q;
                 apply quiet_no_widgets in Q as [Q _]
             end
         | H : initialize_agents X ?s = (_, ?t, _) |- _ =>
             lazymatch goal with
             | Q : input_fields t = 0 |- _ => fail
             | _ =>
                 let Q := fresh "Q" in
                 destruct (initialize_agents_quiet X s) as (Q & _);
                 rewrite H in Q; unfold trace_of in Q; cbn [fst snd] in Q;
                 apply quiet_no_widgets in Q as [Q _]
             end
         end.
  all: unfold input_fields in *.
  all: try (exfalso; apply Hin;
            repeat first [ rewrite count_events_cons
                         | rewrite count_events_app ];
            repeat match goal with
                   | Q : count_events is_input_field _ = 0 |- _ =>
                       rewrite Q; clear Q
                   end; reflexivity).
  match goal with
  | H : (match ?a with Some _ => _ | None => _ end) _ = _ |- _ =>
      destruct a as [agents|]
  end.
  - repeat match goal with
           | H : setup_environment X _ = _ |- _ => rewrite H; clear H
           | H : initialize_agents X _ = _ |- _ =>
               unfold state_of, result_of; cbn [fst snd]; rewrite H; clear H
           end.
    unfold result_of. cbn [fst snd].
    match goal with
    | E : negb ?b = false |- _ => destruct b; [| discriminate E]
    end. eauto.
  - exfalso. apply Hin. unfold st_error in *. script_inv.
    repeat first [ rewrite count_events_cons | rewrite count_events_app ].
    repeat match goal with
           | Q : count_events is_input_field _ = 0 |- _ => rewrite Q; clear Q
           end. reflexivity.
Qed.

End GateFacts.

(** ** The theorems at work on the scripted world *)

Module Runs.
Import Demo.

(** A run that completes calls the five agents in order. *)
Lemma calls_in_order_witness :
  result_of (generate_plan fine agents0 paris (built tavily)) = Ok tt
  /\ model_calls (trace_of (generate_plan fine agents0 paris (built tavily)))
     = [0; 1; 2; 3; 4].
Proof.
  split; [vm_compute; reflexivity |].
  apply (calls_in_order fine agents0 paris (built tavily)).
  vm_compute; reflexivity.
Defined.

(** When the third call to the model raises, the local expert and the
    summarizer are never called: the five calls do not happen in every run. *)
Lemma five_calls_refuted :
  model_calls (trace_of (generate_plan budget_fails agents0 paris (built tavily)))
  <> call_order agents0.
Proof. vm_compute. discriminate. Qed.

(** The success box of a completed run shows the summarizer's text. *)
Lemma summary_of_four_reports_witness :
  result_of (generate_plan fine agents0 paris (built tavily)) = Ok tt
  /\ exists r5,
       forall body,
         In (EvMarkdown (success_box body) true)
            (trace_of (generate_plan fine agents0 paris (built tavily)))
         <-> body = reply_text r5.
Proof.
  split; [vm_compute; reflexivity |].
  destruct (summary_of_four_reports fine agents0 paris (built tavily))
    as (v1 & p1 & r1 & v2 & p2 & r2 & v3 & p3 & r3 & v4 & p4 & r4
        & v5 & p5 & r5 & _ & _ & _ & _ & _ & _ & H);
    [vm_compute; reflexivity |].
  exists r5. exact H.
Defined.

(** The download of a completed run, for Paris France from 2027-07-10. *)
Lemma download_is_the_plan_witness :
  result_of (generate_plan fine agents0 paris (built tavily)) = Ok tt
  /\ exists plan,
       downloads (trace_of (generate_plan fine agents0 paris (built tavily)))
       = [EvDownloadButton "📥 Download Travel Plan" (reply_text plan)
            "travel_plan_Paris_France_2027-07-10.txt" "text/plain"].
Proof.
  split; [vm_compute; reflexivity |].
  destruct (download_is_the_plan fine agents0 paris (built tavily))
    as (plan & _ & H); [vm_compute; reflexivity |].
  exists plan. exact H.
Defined.

(** The budget step raises: three calls, one error box, no plan and no
    download. *)
Lemma failure_is_reported_witness :
  result_of (generate_plan budget_fails agents0 paris
               (state_of (st_button budget_fails "🚀 Generate Travel Plan"
                            (state_of (trip_details budget_fails
                                                    (built tavily))))))
  = Raise "quota exceeded"
  /\ model_calls (trace_of (plan_trip budget_fails agents0 (built tavily)))
     `prefix_of` [0; 1; 2; 3; 4]
  /\ downloads (trace_of (plan_trip budget_fails agents0 (built tavily))) = []
  /\ forall plan,
       ~ In (EvMarkdown (success_box plan) true)
            (trace_of (plan_trip budget_fails agents0 (built tavily))).
Proof.
  split; [vm_compute; reflexivity |].
  destruct (failure_is_reported budget_fails agents0 (built tavily) paris
              "quota exceeded")
    as (_ & _ & _ & _ & Hp & _ & Hd & _ & Hn & _);
    [vm_compute; reflexivity ..|].
  split; [exact Hp |]. split; [exact Hd |].
  apply Hn. vm_compute. lia.
Defined.

(** The prompts of a run that completes. *)
Lemma trip_reaches_prompts_witness :
  result_of (generate_plan fine agents0 paris (built tavily)) = Ok tt
  /\ exists p1 p2 p3 p4 p5,
       call_prompts (trace_of (generate_plan fine agents0 paris (built tavily)))
       = [p1; p2; p3; p4; p5]
       /\ sent (research_query paris) p1 /\ contains (research_query paris) p1
       /\ sent (itinerary_query paris) p2 /\ contains (itinerary_query paris) p2
       /\ sent (budget_query paris) p3 /\ contains (budget_query paris) p3
       /\ sent (local_query paris) p4 /\ contains (local_query paris) p4.
Proof.
  split; [vm_compute; reflexivity |].
  destruct (trip_reaches_prompts fine agents0 paris (built tavily))
    as (_ & H & _).
  apply H. vm_compute; reflexivity.
Defined.

(** The button is pressed with the interests left empty. *)
Lemma invalid_submission_calls_no_agent_witness :
  result_of (trip_details incomplete (built tavily)) = Ok no_interests
  /\ model_calls (trace_of (plan_trip incomplete agents0 (built tavily))) = [].
Proof.
  split; [vm_compute; reflexivity |].
  apply (invalid_submission_calls_no_agent incomplete agents0 (built tavily)
           no_interests); [vm_compute; reflexivity |].
  right. split; [vm_compute; reflexivity |].
  do 5 right. reflexivity.
Defined.

(** The form of a run that goes on to the plan. *)
Lemma form_has_six_inputs_witness :
  result_of (trip_details fine (built tavily)) = Ok paris
  /\ input_fields (trace_of (plan_trip fine agents0 (built tavily))) = 6.
Proof.
  split; [vm_compute; reflexivity |].
  apply (form_has_six_inputs fine agents0 (built tavily) paris).
  vm_compute; reflexivity.
Defined.

(** The claim of five input fields and one submit button fails on the form
    the script shows. *)
Lemma five_inputs_refuted :
  ~ (input_fields (trace_of (plan_trip fine agents0 (built tavily))) = 5
     /\ submit_actions (trace_of (plan_trip fine agents0 (built tavily))) = 1).
Proof. vm_compute. intros [H _]. discriminate H. Qed.

(** The research agent's prompt for a question about Paris. *)
Lemma full_prompt_carries_agent_witness :
  heap (built tavily) !! 0 = Some researcher0
  /\ Forall (prompt_carries
               [role researcher0; goal researcher0; backstory researcher0;
                "Paris in July"])
            (trace_of (run fine 0 "Paris in July" (built tavily))).
Proof.
  split; [vm_compute; reflexivity |].
  apply (full_prompt_carries_agent fine 0 "Paris in July" (built tavily)
           researcher0).
  vm_compute; reflexivity.
Defined.

(** With the Tavily tool, three invocations of the researcher and the
    planner all go through the executor. *)
Lemma search_agents_use_tools_witness :
  result_of (initialize_agents fine s0) = Ok (Some agents0)
  /\ Forall (tool_call_of (report_agents agents0) tavily)
            (invocations fine [(0, "flights"); (1, "days"); (0, "visa")]
                         (state_of (initialize_agents fine s0))).1.
Proof.
  split; [vm_compute; reflexivity |].
  destruct (search_agents_use_tools fine s0 agents0)
    as (ts & s2 & _ & Hobj & Hcalls); [vm_compute; reflexivity |].
  apply Forall_cons in Hobj as ((o & Ho & Hts & _) & _).
  vm_compute in Ho. injection Ho as <-. cbn in Hts. subst ts.
  apply Hcalls. discriminate.
Defined.

(** Without tools the research agent calls the chat model directly: the
    claim that every report agent always goes through a tool-using executor
    fails. *)
Lemma search_agent_without_tools :
  exists agents,
    result_of (initialize_agents no_tools s0) = Ok (Some agents)
    /\ forall ts,
         ~ Forall (tool_call_of (report_agents agents) ts)
                  (trace_of (run no_tools (researcher agents) "flights"
                                 (state_of (initialize_agents no_tools s0)))).
Proof.
  exists agents0. split; [vm_compute; reflexivity |].
  intros ts H.
  assert (exists l fp rest,
            trace_of (run no_tools (researcher agents0) "flights"
                          (state_of (initialize_agents no_tools s0)))
            = EvModelCall 0 (ViaLLM l) fp :: rest) as (l & fp & rest & E).
  { do 3 eexists. vm_compute. reflexivity. }
  rewrite E in H. apply Forall_cons in H as [H _].
  apply H. left. reflexivity.
Qed.

End Runs.

(** ** More runs *)

Module MoreRuns.
Import Demo.

Lemma setup_without_google_key_witness :
  ext_secrets_contains no_secrets "GOOGLE_API_KEY" (world s0) = (Ok false, 0)
  /\ result_of (setup_environment no_secrets s0) = Ok false.
Proof.
  split; [reflexivity |].
  rewrite (setup_without_google_key no_secrets s0 0); reflexivity.
Defined.

Lemma setup_environment_environ_witness :
  result_of (setup_environment fine s0) = Ok true
  /\ is_Some (environ (state_of (setup_environment fine s0)) !! "GOOGLE_API_KEY").
Proof.
  split; [vm_compute; reflexivity |].
  apply (setup_environment_environ fine s0). vm_compute; reflexivity.
Defined.

Lemma composio_tools_or_error_witness :
  result_of (initialize_composio_tools fine s0) = Ok tavily
  /\ errors (trace_of (initialize_composio_tools fine s0)) = [].
Proof.
  split; [vm_compute; reflexivity |].
  destruct (composio_tools_or_error fine s0) as (ts & Hr & _ & _ & _ & H).
  vm_compute in Hr. injection Hr as <-. apply H. discriminate.
Defined.

Lemma run_changes_only_own_executor_witness :
  exists o,
    heap (built tavily) !! 1 = Some o
    /\ heap (state_of (run fine 0 "flights" (built tavily))) !! 1 = Some o.
Proof.
  destruct (run_changes_only_own_executor fine 0 "flights" (built tavily))
    as (_ & H).
  eexists. split; [vm_compute; reflexivity |].
  match goal with
  | |- _ = Some ?o =>
      destruct (H 1 o) as (o' & Ho' & _ & _ & Hne); [vm_compute; reflexivity |]
  end.
  rewrite (Hne ltac:(discriminate)) in Ho'. exact Ho'.
Defined.

Lemma run_calls_at_most_once_witness :
  heap (built tavily) !! 0 = Some researcher0
  /\ use_agent researcher0 && agent_truthy (agent researcher0) = true
  /\ model_calls (trace_of (run framework_down 0 "flights" (built tavily))) = []
  /\ heap (state_of (run framework_down 0 "flights" (built tavily)))
     = heap (built tavily).
Proof.
  split; [vm_compute; reflexivity |]. split; [reflexivity |].
  split; [vm_compute; reflexivity |].
  apply (run_calls_at_most_once framework_down 0 "flights" (built tavily))
    with (o := researcher0); vm_compute; reflexivity.
Defined.

Lemma initialize_agents_objects_witness :
  result_of (initialize_agents fine s0) = Ok (Some agents0)
  /\ call_order agents0 = seq 0 5.
Proof.
  split; [vm_compute; reflexivity |].
  destruct (initialize_agents_objects fine s0 agents0)
    as (objs & _ & H & _); [vm_compute; reflexivity |].
  exact H.
Defined.

Lemma summarizer_never_uses_tools_witness :
  result_of (initialize_agents fine s0) = Ok (Some agents0)
  /\ Forall (direct_call_of [4])
            (invocations fine [(4, "sum up"); (4, "again")]
                         (state_of (initialize_agents fine s0))).1.
Proof.
  split; [vm_compute; reflexivity |].
  apply (summarizer_never_uses_tools fine s0 agents0). vm_compute; reflexivity.
Defined.

Lemma reports_are_shown_witness :
  result_of (generate_plan fine agents0 paris (built tavily)) = Ok tt
  /\ length (returned (trace_of (generate_plan fine agents0 paris
                                               (built tavily)))) = 5.
Proof.
  split; [vm_compute; reflexivity |].
  apply (reports_are_shown fine agents0 paris (built tavily)).
  vm_compute; reflexivity.
Defined.

Lemma no_click_no_plan_witness :
  result_of (trip_details idle (built tavily)) = Ok paris
  /\ model_calls (trace_of (plan_trip idle agents0 (built tavily))) = [].
Proof.
  split; [vm_compute; reflexivity |].
  apply (no_click_no_plan idle agents0 (built tavily) paris);
    vm_compute; reflexivity.
Defined.

Lemma main_calls_agents_only_on_valid_submission_witness :
  model_calls (trace_of (main fine s0)) <> []
  /\ exists pre agents s1 t,
       trace_of (main fine s0) = pre ++ trace_of (plan_trip fine agents s1)
       /\ all_filled t = true.
Proof.
  assert (model_calls (trace_of (main fine s0)) <> []) as Hc
    by (vm_compute; discriminate).
  split; [exact Hc |].
  destruct (main_calls_agents_only_on_valid_submission fine s0 Hc)
    as (pre & agents & s1 & t & Htr & _ & _ & _ & _ & Hall).
  exists pre, agents, s1, t. split; [exact Htr | exact Hall].
Defined.

Lemma form_needs_setup_and_agents_witness :
  input_fields (trace_of (main fine s0)) <> 0
  /\ result_of (setup_environment fine s0) = Ok true.
Proof.
  assert (input_fields (trace_of (main fine s0)) <> 0) as Hc
    by (vm_compute; discriminate).
  split; [exact Hc |].
  apply (form_needs_setup_and_agents fine s0 Hc).
Defined.

Lemma no_tools_all_direct_witness :
  result_of (initialize_agents no_tools s0) = Ok (Some agents0)
  /\ Forall (direct_call_of (report_agents agents0))
            (invocations no_tools [(0, "flights"); (3, "events"); (0, "visa")]
                         (state_of (initialize_agents no_tools s0))).1.
Proof.
  split; [vm_compute; reflexivity |].
  apply (no_tools_all_direct no_tools s0 agents0); vm_compute; reflexivity.
Defined.

Lemma completed_plan_is_text_witness :
  result_of (generate_plan fine agents0 paris (built tavily)) = Ok tt
  /\ exists r5, reply_value r5 = Str (reply_text r5).
Proof.
  split; [vm_compute; reflexivity |].
  destruct (completed_plan_is_text fine agents0 paris (built tavily))
    as (r5 & _ & H); [vm_compute; reflexivity |].
  exists r5. exact H.
Defined.

End MoreRuns.
